(** * EduMorph: the performance and recommendation services

    A shallow embedding of the service classes under [web/lib/services]
    ([ProgressTracker], [DifficultyAdjuster], [AnalyticsService],
    [StudyMatchmaker]) together with the properties stated about them.

    Modelling conventions.
    - A TypeScript [number] is an exact rational ([Q]); comparisons are the
      boolean tests of [Q], so a threshold such as [score >= 90] is decided
      exactly.  Where a statement depends on how sums and quotients round,
      the expression is evaluated in IEEE double arithmetic instead (module
      [Double]): a finite double is the rational it denotes, and each
      operation rounds its exact result to the nearest double.
    - A [Date] is its [valueOf()], an integer count of milliseconds ([Z]).
      One service call observes one instant [now]: every [new Date()] and
      [Date.now()] evaluated during the call reads that instant.
    - The document store is a record of collections.  Collections addressed
      by a document id are finite maps; collections that are only queried
      are lists in the order the store enumerates them.
    - An [async] method is a computation in the monad [M]: it threads the
      store and either returns a value or throws. *)

From Stdlib Require Import ZArith QArith Qabs Qround Qminmax Qpower Lia Lqa.
From Stdlib Require Import Sorted Permutation Floats.SpecFloat.
From stdpp Require Import base option list strings gmap pretty.

Local Open Scope string_scope.
Local Open Scope Q_scope.

(** ** JavaScript numbers and the [Math] functions the services call *)

Module JS.

Abbreviation number := Q (only parsing).

Definition of_nat (n : nat) : number := inject_Z (Z.of_nat n).

(** [x >= y], [x <= y], [x < y], [x > y] *)
Definition geb (x y : number) : bool := Qle_bool y x.
Definition leb (x y : number) : bool := Qle_bool x y.
Definition ltb (x y : number) : bool := negb (Qle_bool y x).
Definition gtb (x y : number) : bool := negb (Qle_bool x y).

(** [!x] for a number that is present: only zero is falsy. *)
Definition falsy (x : number) : bool := Qeq_bool x 0.

Definition Math_abs (x : number) : number := Qabs x.
Definition Math_max (x y : number) : number := Qmax x y.
Definition Math_min (x y : number) : number := Qmin x y.

(** [Math.round]: the nearest integer, halves rounded up. *)
Definition Math_round (x : number) : number := inject_Z (Qfloor (x + (1 # 2))).

(** [Array.prototype.sort(cmp)]: a stable sort; [a] stays in front of [b]
    unless [cmp a b > 0]. *)
Section Sort.
Context {A : Type} (cmp : A -> A -> number).

Fixpoint insert_sorted (x : A) (l : list A) : list A :=
  match l with
  | [] => [x]
  | y :: l' =>
      if gtb (cmp x y) 0 then y :: insert_sorted x l' else x :: y :: l'
  end.

Definition sort (l : list A) : list A := foldr insert_sorted [] l.
End Sort.

(** [Array.prototype.slice(0, n)] *)
Definition slice0 {A} (n : nat) (l : list A) : list A := firstn n l.

End JS.

(** ** IEEE 754 double arithmetic

    A JavaScript number is a binary64 value.  A finite one is modelled by
    the rational it denotes; an operation on finite values computes the
    exact rational result and rounds it to the nearest double, ties to the
    even significand, overflowing to an infinity from [2^1024 - 2^970] on.
    The sign of zero is not tracked. *)

Module Double.

(** The exponent of the smallest positive double, [2^-1074], and the bound
    [2^1024] below which the finite doubles lie *)
Definition emin : Z := -1074.
Definition emax : Z := 1024.

Inductive t := Finite (q : Q) | Infinity (negative : bool) | NaN.

Definition pow2 (e : Z) : Q := 2 ^ e.

(** For [x > 0], the exponent [e] with [2^e <= x < 2^(e+1)] *)
Definition ilog2 (x : Q) : Z :=
  let e := (Z.log2 (Qnum x) - Z.log2 (Zpos (Qden x)))%Z in
  if Qle_bool (pow2 e) x then e else (e - 1)%Z.

(** The nearest whole number, halves going to the even neighbour *)
Definition rne (y : Q) : Z :=
  let f := Qfloor y in
  match Qcompare (y - inject_Z f) (1 # 2) with
  | Lt => f
  | Gt => (f + 1)%Z
  | Eq => if Z.even f then f else (f + 1)%Z
  end.

(** The exponent of the last place of the doubles around [x]: 52 below the
    exponent of [x], and never below [emin] *)
Definition quantum (x : Q) : Z := Z.max (ilog2 (Qabs x) - 52) emin.

Definition round (x : Q) : t :=
  if Qeq_bool x 0 then Finite 0 else
  let v := Qred (inject_Z (rne (x / pow2 (quantum x))) * pow2 (quantum x)) in
  if Qle_bool (pow2 emax) (Qabs v)
  then Infinity (negb (Qle_bool 0 x))
  else Finite v.

(** [a + b] *)
Definition add (a b : t) : t :=
  match a, b with
  | NaN, _ | _, NaN => NaN
  | Finite x, Finite y => round (x + y)
  | Infinity s, Infinity s' => if Bool.eqb s s' then Infinity s else NaN
  | Infinity s, Finite _ | Finite _, Infinity s => Infinity s
  end.

(** [a / b] *)
Definition div (a b : t) : t :=
  match a, b with
  | NaN, _ | _, NaN => NaN
  | Finite x, Finite y =>
      if Qeq_bool y 0
      then (if Qeq_bool x 0 then NaN else Infinity (negb (Qle_bool 0 x)))
      else round (x / y)
  | Infinity _, Infinity _ => NaN
  | Infinity s, Finite y => Infinity (xorb s (negb (Qle_bool 0 y)))
  | Finite _, Infinity _ => Finite 0
  end.

(** The value of a binary64 number of the Standard Library's specification
    of IEEE 754, and the binary64 number of a whole number, for comparing
    this module with that specification *)
Definition ofSpec (f : spec_float) : t :=
  match f with
  | S754_zero _ => Finite 0
  | S754_infinity s => Infinity s
  | S754_nan => NaN
  | S754_finite s m e =>
      Finite (Qred (inject_Z (if s then Z.neg m else Z.pos m) * pow2 e))
  end.

Definition specOfZ (z : Z) : spec_float := binary_normalize 53 1024 z 0 false.

End Double.

(** ** Insertion-ordered dictionaries

    A JavaScript [Map], and an object used as a dictionary with ordinary
    string keys, enumerate their entries in insertion order; assigning to a
    key that is present keeps its position.  Keys that an object treats
    specially (array indices, which enumerate first, and the names it
    inherits from [Object.prototype]) are outside the model; the one such
    name under which an object stores nothing, [__proto__], is handled
    where the services write to a plain object. *)

Module Dict.
Section Dict.
Context {K V : Type} `{EqDecision K}.

Definition t := list (K * V).

Fixpoint get (k : K) (d : t) : option V :=
  match d with
  | [] => None
  | (k', v) :: d' => if decide (k = k') then Some v else get k d'
  end.

Fixpoint set (k : K) (v : V) (d : t) : t :=
  match d with
  | [] => [(k, v)]
  | (k', v') :: d' =>
      if decide (k = k') then (k, v) :: d' else (k', v') :: set k v d'
  end.

Definition has (k : K) (d : t) : bool :=
  match get k d with Some _ => true | None => false end.

(** [d[k]] read where the key is known to be present *)
Definition get_or (dflt : V) (k : K) (d : t) : V :=
  match get k d with Some v => v | None => dflt end.

Definition keys (d : t) : list K := map fst d.
Definition values (d : t) : list V := map snd d.

(** Every entry is the one its key looks up: the keys are distinct. *)
Definition wf (d : t) : Prop :=
  forall k v, In (k, v) d -> get k d = Some v.
End Dict.
Arguments t : clear implicits.
End Dict.

(** ** The record types of [types/features.ts] *)

Inductive Difficulty := beginner | intermediate | advanced.
Inductive Priority := high | medium | low.

Abbreviation Date := Z (only parsing).

Module StudentProgress.
Record t := mk {
  studentId : string;
  subject : string;
  topic : string;
  completedAt : Date;
  score : JS.number;
  timeSpent : JS.number;
  difficulty : Difficulty;
  attempts : JS.number
}.
End StudentProgress.

Module LearningGap.
Record t := mk {
  studentId : string;
  subject : string;
  topic : string;
  weakPoints : list string;
  suggestedResources : list string;
  priority : Priority;
  identifiedAt : Date
}.
End LearningGap.

Module PerformanceMetrics.
Record t := mk {
  studentId : string;
  overallScore : JS.number;
  subjectScores : Dict.t string JS.number;
  strengths : list string;
  weaknesses : list string;
  learningVelocity : JS.number;
  consistency : JS.number;
  lastUpdated : Date
}.
End PerformanceMetrics.

Module SubjectReport.
Record t := mk {
  subject : string;
  grade : string;
  score : JS.number;
  topicsCompleted : JS.number;
  topicsTotal : JS.number;
  strengths : list string;
  improvements : list string
}.
End SubjectReport.

Module StudentReport.
Record t := mk {
  studentId : string;
  reportId : string;
  period : Date * Date;
  overallGrade : string;
  subjects : list SubjectReport.t;
  attendance : JS.number;
  behavioralNotes : list string;
  recommendations : list string;
  generatedAt : Date
}.
End StudentReport.

Inductive StudyTime := morning | afternoon | evening | night.
Inductive StudyStyle := visual | auditory | kinesthetic | reading.

Module StudyPreferences.
Record t := mk {
  subjects : list string;
  studyTime : StudyTime;
  studyStyle : StudyStyle;
  goals : list string
}.
End StudyPreferences.

Module StudyMatch.
Record t := mk {
  matchId : string;
  student1 : string;
  student2 : string;
  commonSubjects : list string;
  compatibilityScore : JS.number;
  studyPreferences : StudyPreferences.t;
  matchedAt : Date
}.
End StudyMatch.

Module AnalyticsInsight.
Inductive Kind := strength | weakness | recommendation | achievement.

Record t := mk {
  type : Kind;
  title : string;
  description : string;
  actionItems : list string;
  createdAt : Date
}.
End AnalyticsInsight.

(** A document of the [insights] collection *)
Module InsightsDoc.
Record t := mk {
  studentId : string;
  insights : list AnalyticsInsight.t;
  generatedAt : Date
}.
End InsightsDoc.

(** ** The document store *)

Module Firestore.

(** A user profile document; the services read its [role] only. *)
Record UserDoc := mkUser { role : string }.

Record Store := mkStore {
  progress : list StudentProgress.t;
  performanceMetrics : gmap string PerformanceMetrics.t;
  learningGaps : gmap string LearningGap.t;
  reports : gmap string StudentReport.t;
  studyMatches : gmap string StudyMatch.t;
  users : list (string * UserDoc)
}.

Definition set_performanceMetrics (k : string) (m : PerformanceMetrics.t)
    (s : Store) : Store :=
  mkStore (progress s) (<[k := m]> (performanceMetrics s)) (learningGaps s)
          (reports s) (studyMatches s) (users s).

(** [setDoc(ref, gap, {merge: true})]: every field of a [LearningGap] is
    written, so the merged document is the gap itself. *)
Definition merge_learningGap (k : string) (g : LearningGap.t)
    (s : Store) : Store :=
  mkStore (progress s) (performanceMetrics s) (<[k := g]> (learningGaps s))
          (reports s) (studyMatches s) (users s).

Definition set_report (k : string) (r : StudentReport.t) (s : Store) : Store :=
  mkStore (progress s) (performanceMetrics s) (learningGaps s)
          (<[k := r]> (reports s)) (studyMatches s) (users s).

Definition set_studyMatch (k : string) (m : StudyMatch.t) (s : Store) : Store :=
  mkStore (progress s) (performanceMetrics s) (learningGaps s)
          (reports s) (<[k := m]> (studyMatches s)) (users s).

Definition add_progress (p : StudentProgress.t) (s : Store) : Store :=
  mkStore (progress s ++ [p])%list (performanceMetrics s) (learningGaps s)
          (reports s) (studyMatches s) (users s).

(** Document ids that the store reserves: [__.*__] *)
Definition reservedId (id : string) : bool :=
  (4 <=? String.length id)%nat
  && String.prefix "__" id
  && String.eqb (String.substring (String.length id - 2) 2 id) "__".

(** Ids under which [doc] builds a reference to a document of the named
    collection and [setDoc] stores it: not empty, without a slash, not
    reserved, not [.] or [..], at most 1500 bytes.  An id with a slash
    names a longer path: [doc] throws when that path does not end at a
    document, and otherwise refers to a document outside the collection. *)
Definition validDocId (id : string) : bool :=
  negb (String.eqb id "")
  && match String.index 0 "/" id with None => true | Some _ => false end
  && negb (reservedId id)
  && negb (String.eqb id ".")
  && negb (String.eqb id "..")
  && (String.length id <=? 1500)%nat.

End Firestore.

(** ** The monad of [async] methods: store passing with exceptions *)

Module Async.
Import Firestore.

Inductive Outcome (A : Type) :=
| Returned (a : A) (s : Store)
| Thrown (msg : string) (s : Store).
Arguments Returned {A} a s.
Arguments Thrown {A} msg s.

Definition M (A : Type) := Store -> Outcome A.

Definition ret {A} (a : A) : M A := fun s => Returned a s.

Definition bind {A B} (m : M A) (k : A -> M B) : M B :=
  fun s => match m s with
           | Returned a s' => k a s'
           | Thrown e s' => Thrown e s'
           end.

Definition throw {A} (msg : string) : M A := fun s => Thrown msg s.
Definition read {A} (f : Store -> A) : M A := fun s => Returned (f s) s.
Definition write (f : Store -> Store) : M unit := fun s => Returned tt (f s).

(** [for (const x of l) { await body(x) }] *)
Fixpoint for_each {A} (l : list A) (body : A -> M unit) : M unit :=
  match l with
  | [] => ret tt
  | x :: l' => bind (body x) (fun _ => for_each l' body)
  end.

(** A [for] loop whose body updates a local variable [acc] *)
Fixpoint for_fold {A S} (l : list A) (acc : S) (body : S -> A -> M S) : M S :=
  match l with
  | [] => ret acc
  | x :: l' => bind (body acc x) (fun acc' => for_fold l' acc' body)
  end.

Definition final_store {A} (o : Outcome A) : Store :=
  match o with Returned _ s => s | Thrown _ s => s end.

Definition returned {A} (o : Outcome A) : option A :=
  match o with Returned a _ => Some a | Thrown _ _ => None end.
End Async.

Declare Scope async_scope.
Delimit Scope async_scope with async.
Notation "'let*' x := c1 'in' c2" := (Async.bind c1 (fun x => c2))
  (at level 10, x name, c1 at level 100, c2 at level 200) : async_scope.

(** ** [ProgressTracker] *)

Module ProgressTracker.
Import Firestore Async.
Local Open Scope async_scope.

Definition msPerDay : Z := 86400000.

(** [d.setDate(d.getDate() - n)], in a zone without clock changes *)
Definition daysBefore (d : Date) (n : Z) : Date := (d - n * msPerDay)%Z.

(** [d.toISOString().split("T")[0]]: the UTC calendar date, named here by
    the number of the UTC day it denotes *)
Definition dayOf (d : Date) : Z := (d `div` msPerDay)%Z.

(** [orderBy("completedAt", "desc")] *)
Definition newestFirst (a b : StudentProgress.t) : JS.number :=
  inject_Z (StudentProgress.completedAt b - StudentProgress.completedAt a).

(** The query [where("studentId", "==", studentId)] with
    [orderBy("completedAt", "desc")]; events with equal timestamps stay in
    the order the store enumerates them. *)
Definition studentHistory (studentId : string) (s : Store)
    : list StudentProgress.t :=
  JS.sort newestFirst
    (List.filter (fun p => String.eqb (StudentProgress.studentId p) studentId)
                 (progress s)).

Definition getStudentProgress (studentId : string)
    : M (list StudentProgress.t) :=
  read (studentHistory studentId).

Definition difficultyName (d : Difficulty) : string :=
  match d with
  | beginner => "beginner"
  | intermediate => "intermediate"
  | advanced => "advanced"
  end.

Definition generateSuggestedResources (subject topic difficulty : string)
    : list string :=
  [ "Review " +:+ difficulty +:+ " level materials for " +:+ topic;
    "Practice exercises on " +:+ topic;
    "Watch tutorial videos about " +:+ subject +:+ " - " +:+ topic;
    "Join study group for " +:+ subject ].

Definition gapKey (item : StudentProgress.t) : string :=
  StudentProgress.subject item +:+ "-" +:+ StudentProgress.topic item.

(** An event is gap evidence when [score < 60 || attempts > 2]. *)
Definition qualifies (item : StudentProgress.t) : bool :=
  JS.ltb (StudentProgress.score item) 60
  || JS.gtb (StudentProgress.attempts item) 2.

Definition priorityOf (score : JS.number) : Priority :=
  if JS.ltb score 40 then high else if JS.ltb score 60 then medium else low.

Definition newGap (studentId : string) (now : Date)
    (item : StudentProgress.t) : LearningGap.t :=
  LearningGap.mk studentId
    (StudentProgress.subject item) (StudentProgress.topic item)
    []
    (generateSuggestedResources
       (StudentProgress.subject item) (StudentProgress.topic item)
       (difficultyName (StudentProgress.difficulty item)))
    (priorityOf (StudentProgress.score item))
    now.

(** The body of [progress.forEach] in [identifyLearningGaps] *)
Definition gapStep (studentId : string) (now : Date)
    (gapMap : Dict.t string LearningGap.t) (item : StudentProgress.t)
    : Dict.t string LearningGap.t :=
  let key := gapKey item in
  if qualifies item then
    match Dict.get key gapMap with
    | Some _ => gapMap
    | None => Dict.set key (newGap studentId now item) gapMap
    end
  else gapMap.

Definition collectGaps (studentId : string) (now : Date)
    (progress : list StudentProgress.t) : list LearningGap.t :=
  Dict.values (fold_left (gapStep studentId now) progress []).

Definition gapDocId (gap : LearningGap.t) : string :=
  LearningGap.studentId gap +:+ "-" +:+ LearningGap.subject gap
    +:+ "-" +:+ LearningGap.topic gap.

(** [setDoc(doc(collection(db, "learningGaps"), id), gap, {merge: true})]
    with the id built from the gap's student, subject and topic.  Subject
    and topic are free text: the write is rejected when the id is not a
    valid document id. *)
Definition saveGap (gap : LearningGap.t) : M unit :=
  if validDocId (gapDocId gap)
  then write (merge_learningGap (gapDocId gap) gap)
  else throw "invalid-argument".

Definition identifyLearningGaps (studentId : string) (now : Date)
    : M (list LearningGap.t) :=
  let* progress := getStudentProgress studentId in
  let gaps := collectGaps studentId now progress in
  let* _ := for_each gaps saveGap in
  ret gaps.

Definition calculateConsistency (now : Date)
    (progress : list StudentProgress.t) : JS.number :=
  if (length progress <? 7)%nat then 50 else
  let last30Days := daysBefore now 30 in
  let recentProgress :=
    List.filter (fun p => (last30Days <=? StudentProgress.completedAt p)%Z)
                progress in
  if (length recentProgress =? 0)%nat then 0 else
  let dayMap : gmap Z JS.number :=
    fold_left
      (fun dayMap p =>
         let day := dayOf (StudentProgress.completedAt p) in
         <[day := default 0 (dayMap !! day) + 1]> dayMap)
      recentProgress ∅ in
  let activeDays := JS.of_nat (size dayMap) in
  let consistency := JS.Math_min 100 ((activeDays / 30) * 100) in
  JS.Math_round consistency.

(** [progress.reduce((sum, p) => sum + p.score, 0)] *)
Definition sumScores (progress : list StudentProgress.t) : JS.number :=
  fold_left (fun sum p => sum + StudentProgress.score p) progress 0.

(** [!subjectScores[k]]: the key is missing, or its running sum is zero. *)
Definition unset (k : string) (subjectScores : Dict.t string JS.number) : bool :=
  match Dict.get k subjectScores with
  | None => true
  | Some v => JS.falsy v
  end.

(** The body of [progress.forEach] in [updatePerformanceMetrics]; the
    state is the pair [subjectScores], [subjectCounts].  Both are plain
    objects: under the name [__proto__] a read yields the prototype, which
    is truthy, and the two assignments, of a string and of NaN, are dropped
    by the prototype setter, so that the event leaves no entry. *)
Definition subjectStep
    (acc : Dict.t string JS.number * Dict.t string JS.number)
    (p : StudentProgress.t)
    : Dict.t string JS.number * Dict.t string JS.number :=
  let k := StudentProgress.subject p in
  if String.eqb k "__proto__" then acc else
  let '(subjectScores, subjectCounts) :=
    if unset k (fst acc)
    then (Dict.set k 0 (fst acc), Dict.set k 0 (snd acc))
    else acc in
  (Dict.set k (Dict.get_or 0 k subjectScores + StudentProgress.score p)
            subjectScores,
   Dict.set k (Dict.get_or 0 k subjectCounts + 1) subjectCounts).

Definition averageSubjects
    (acc : Dict.t string JS.number * Dict.t string JS.number)
    : Dict.t string JS.number :=
  map (fun e : string * JS.number =>
         (fst e, snd e / Dict.get_or 0 (fst e) (snd acc)))
      (fst acc).

(** The snapshot computed from a non-empty history *)
Definition computeMetrics (studentId : string) (now : Date)
    (progress : list StudentProgress.t) : PerformanceMetrics.t :=
  let overallScore := sumScores progress / JS.of_nat (length progress) in
  let subjectScores := averageSubjects (fold_left subjectStep progress ([], [])) in
  let strengths :=
    map fst (List.filter (fun e : string * JS.number => JS.geb (snd e) 75) subjectScores) in
  let weaknesses :=
    map fst (List.filter (fun e : string * JS.number => JS.ltb (snd e) 60) subjectScores) in
  let oneWeekAgo := daysBefore now 7 in
  let recentProgress :=
    List.filter (fun p => (oneWeekAgo <=? StudentProgress.completedAt p)%Z)
                progress in
  let learningVelocity := JS.of_nat (length recentProgress) in
  let consistency := calculateConsistency now progress in
  PerformanceMetrics.mk studentId overallScore subjectScores strengths
    weaknesses learningVelocity consistency now.

Definition updatePerformanceMetrics (studentId : string) (now : Date)
    : M (option PerformanceMetrics.t) :=
  let* progress := getStudentProgress studentId in
  if (length progress =? 0)%nat then ret None else
  let metrics := computeMetrics studentId now progress in
  let* _ := write (set_performanceMetrics studentId metrics) in
  ret (Some metrics).

Definition getPerformanceMetrics (studentId : string) (now : Date)
    : M (option PerformanceMetrics.t) :=
  let* metricsSnap := read (fun s => performanceMetrics s !! studentId) in
  match metricsSnap with
  | None => updatePerformanceMetrics studentId now
  | Some data => ret (Some data)
  end.

Definition recordProgress (progress : Date -> StudentProgress.t) (now : Date)
    : M StudentProgress.t :=
  let progressData := progress now in
  let* _ := write (add_progress progressData) in
  let* _ := updatePerformanceMetrics (StudentProgress.studentId progressData) now in
  ret progressData.

(** [progress.reduce((sum, p) => sum + p.score, 0) / progress.length] as
    the code evaluates it, in double arithmetic: the value that
    [updatePerformanceMetrics] stores as [overallScore].  The length of an
    array is below [2^32] and so is a double as it stands. *)
Definition sumScoresIEEE (progress : list StudentProgress.t) : Double.t :=
  fold_left
    (fun sum p => Double.add sum (Double.Finite (StudentProgress.score p)))
    progress (Double.Finite 0).

Definition overallScoreIEEE (progress : list StudentProgress.t) : Double.t :=
  Double.div (sumScoresIEEE progress)
             (Double.Finite (JS.of_nat (length progress))).

End ProgressTracker.

(** ** [DifficultyAdjuster] *)

Module DifficultyAdjuster.

Definition adjustDifficulty (currentDifficulty : Difficulty)
    (recentPerformance : list StudentProgress.t)
    (metrics : PerformanceMetrics.t) : Difficulty :=
  if (length recentPerformance <? 3)%nat then currentDifficulty else
  let avgScore :=
    fold_left (fun sum p => sum + StudentProgress.score p) recentPerformance 0
    / JS.of_nat (length recentPerformance) in
  let avgAttempts :=
    fold_left (fun sum p => sum + StudentProgress.attempts p) recentPerformance 0
    / JS.of_nat (length recentPerformance) in
  let consistency := PerformanceMetrics.consistency metrics in
  match currentDifficulty with
  | beginner =>
      if JS.geb avgScore 80 && JS.leb avgAttempts 1.5 && JS.geb consistency 70
      then intermediate
      else currentDifficulty
  | intermediate =>
      if JS.geb avgScore 85 && JS.leb avgAttempts 1.3 && JS.geb consistency 80
      then advanced
      else if JS.ltb avgScore 60 || JS.gtb avgAttempts 2.5
      then beginner
      else currentDifficulty
  | advanced =>
      if JS.ltb avgScore 70 || JS.gtb avgAttempts 2
      then intermediate
      else currentDifficulty
  end.

Definition getRecommendedDifficulty (subject : string)
    (metrics : PerformanceMetrics.t) : Difficulty :=
  let subjectScore :=
    match Dict.get subject (PerformanceMetrics.subjectScores metrics) with
    | Some v => if JS.falsy v then 0 else v
    | None => 0
    end in
  let consistency := PerformanceMetrics.consistency metrics in
  if JS.geb subjectScore 80 && JS.geb consistency 70 then advanced
  else if JS.geb subjectScore 60 && JS.geb consistency 50 then intermediate
  else beginner.

Definition getLearningSpeadMultiplier (metrics : PerformanceMetrics.t)
    : JS.number :=
  let overallScore := PerformanceMetrics.overallScore metrics in
  let consistency := PerformanceMetrics.consistency metrics in
  let multiplier := 1.0 in
  let multiplier :=
    if JS.geb overallScore 85 then multiplier + 0.3
    else if JS.geb overallScore 70 then multiplier + 0.1
    else if JS.ltb overallScore 50 then multiplier - 0.3
    else multiplier in
  let multiplier :=
    if JS.geb consistency 80 then multiplier + 0.2
    else if JS.ltb consistency 40 then multiplier - 0.2
    else multiplier in
  JS.Math_max 0.5 (JS.Math_min 1.5 multiplier).

(** [recommendations.push(...)] appends to the end of the list. *)
Definition generateStudyRecommendations (metrics : PerformanceMetrics.t)
    : list string :=
  let overallScore := PerformanceMetrics.overallScore metrics in
  let consistency := PerformanceMetrics.consistency metrics in
  let learningVelocity := PerformanceMetrics.learningVelocity metrics in
  let weaknesses := PerformanceMetrics.weaknesses metrics in
  let strengths := PerformanceMetrics.strengths metrics in
  let recommendations : list string := [] in
  let recommendations :=
    if JS.ltb overallScore 60 then
      (recommendations
       ++ ["Focus on reviewing fundamental concepts before moving forward";
           "Consider scheduling more practice sessions each week"])%list
    else if JS.geb overallScore 85 then
      (recommendations
       ++ ["Excellent progress! You're ready for more challenging material"])%list
    else recommendations in
  let recommendations :=
    if JS.ltb consistency 50 then
      (recommendations
       ++ ["Try to study regularly - consistency is key to retention";
           "Set a daily study schedule and stick to it"])%list
    else recommendations in
  let recommendations :=
    if JS.ltb learningVelocity 3 then
      (recommendations
       ++ ["Increase your study pace to complete more topics each week"])%list
    else if JS.gtb learningVelocity 10 then
      (recommendations
       ++ ["Great pace! Make sure to review previous topics to ensure retention"])%list
    else recommendations in
  let recommendations :=
    if (0 <? length weaknesses)%nat then
      (recommendations
       ++ ["Focus extra time on: " +:+ String.concat ", " weaknesses])%list
    else recommendations in
  let recommendations :=
    if (0 <? length strengths)%nat then
      (recommendations
       ++ ["Great job in: " +:+ String.concat ", " strengths
           +:+ "! Keep it up!"])%list
    else recommendations in
  recommendations.

End DifficultyAdjuster.

(** ** [AnalyticsService] *)

Module AnalyticsService.
Import Firestore Async.
Local Open Scope async_scope.

Definition calculateOverallGrade (score : JS.number) : string :=
  if JS.geb score 90 then "A+"
  else if JS.geb score 85 then "A"
  else if JS.geb score 80 then "B+"
  else if JS.geb score 75 then "B"
  else if JS.geb score 70 then "C+"
  else if JS.geb score 65 then "C"
  else if JS.geb score 60 then "D"
  else "F".

(** The grade assigned inside the per-subject callback of
    [generateStudentReport]: [let grade = "F"] followed by the
    [if]/[else if] assignments. *)
Definition subjectGrade (avgScore : JS.number) : string :=
  let grade := "F" in
  if JS.geb avgScore 90 then "A+"
  else if JS.geb avgScore 85 then "A"
  else if JS.geb avgScore 80 then "B+"
  else if JS.geb avgScore 75 then "B"
  else if JS.geb avgScore 70 then "C+"
  else if JS.geb avgScore 65 then "C"
  else if JS.geb avgScore 60 then "D"
  else grade.

(** [array.includes(x)] on strings *)
Definition includes (x : string) (l : list string) : bool :=
  existsb (String.eqb x) l.

(** The body of [periodProgress.forEach]: group the events by subject. *)
Definition groupStep (subjectMap : Dict.t string (list StudentProgress.t))
    (p : StudentProgress.t) : Dict.t string (list StudentProgress.t) :=
  let k := StudentProgress.subject p in
  let subjectMap :=
    if Dict.has k subjectMap then subjectMap else Dict.set k [] subjectMap in
  Dict.set k (Dict.get_or [] k subjectMap ++ [p])%list subjectMap.

Definition subjectReport (metrics : PerformanceMetrics.t)
    (entry : string * list StudentProgress.t) : SubjectReport.t :=
  let '(subject, progressList) := entry in
  let avgScore :=
    fold_left (fun sum p => sum + StudentProgress.score p) progressList 0
    / JS.of_nat (length progressList) in
  let topicsCompleted :=
    JS.of_nat (size (list_to_set (map StudentProgress.topic progressList)
                     : gset string)) in
  SubjectReport.mk subject (subjectGrade avgScore) avgScore
    topicsCompleted (topicsCompleted + 5)
    (if includes subject (PerformanceMetrics.strengths metrics)
     then ["Consistent performance"; "Good understanding"] else [])
    (if includes subject (PerformanceMetrics.weaknesses metrics)
     then ["Needs more practice"; "Review fundamentals"] else []).

Definition buildReport (studentId : string) (startDate endDate now : Date)
    (progress : list StudentProgress.t) (metrics : PerformanceMetrics.t)
    : StudentReport.t :=
  let periodProgress :=
    List.filter
      (fun p => (startDate <=? StudentProgress.completedAt p)%Z
                && (StudentProgress.completedAt p <=? endDate)%Z)
      progress in
  let subjectMap := fold_left groupStep periodProgress [] in
  let subjects := map (subjectReport metrics) subjectMap in
  StudentReport.mk studentId
    (studentId +:+ "-" +:+ pretty now)
    (startDate, endDate)
    (calculateOverallGrade (PerformanceMetrics.overallScore metrics))
    subjects
    85
    ["Engaged in class"; "Participates actively"]
    (map (fun w => "Focus on improving " +:+ w)
         (PerformanceMetrics.weaknesses metrics)
     ++ ["Maintain current study habits for strong subjects"])%list
    now.

Definition generateStudentReport (studentId : string)
    (startDate endDate now : Date) : M StudentReport.t :=
  let* progress := ProgressTracker.getStudentProgress studentId in
  let* metrics := ProgressTracker.getPerformanceMetrics studentId now in
  match metrics with
  | None => throw "No performance data available"
  | Some metrics =>
      let report := buildReport studentId startDate endDate now progress metrics in
      let* _ := write (set_report (StudentReport.reportId report) report) in
      ret report
  end.

Definition achievementInsight (now : Date) (strength : string)
    : AnalyticsInsight.t :=
  AnalyticsInsight.mk AnalyticsInsight.achievement
    ("Excelling in " +:+ strength)
    ("You're performing excellently in " +:+ strength
     +:+ "! Keep up the great work.")
    [ "Consider helping peers with " +:+ strength;
      "Try advanced materials to challenge yourself" ]
    now.

Definition weaknessInsight (gaps : list LearningGap.t) (now : Date)
    (weakness : string) : AnalyticsInsight.t :=
  let relatedGaps :=
    List.filter (fun g => String.eqb (LearningGap.subject g) weakness) gaps in
  AnalyticsInsight.mk AnalyticsInsight.weakness
    ("Improvement needed in " +:+ weakness)
    ("Focus on strengthening your understanding of " +:+ weakness +:+ ".")
    (match relatedGaps with
     | g :: _ => LearningGap.suggestedResources g
     | [] =>
         [ "Schedule dedicated study time for " +:+ weakness;
           "Seek help from teacher or tutor";
           "Practice with additional exercises" ]
     end)
    now.

Definition consistencyInsight (now : Date) : AnalyticsInsight.t :=
  AnalyticsInsight.mk AnalyticsInsight.recommendation
    "Improve Study Consistency"
    "Regular study sessions lead to better retention and understanding."
    [ "Set a daily study schedule";
      "Use calendar reminders";
      "Start with small, manageable sessions" ]
    now.

Definition paceInsight (now : Date) : AnalyticsInsight.t :=
  AnalyticsInsight.mk AnalyticsInsight.recommendation
    "Increase Learning Pace"
    "Try to cover more topics each week for faster progress."
    [ "Allocate more study time each day";
      "Break complex topics into smaller parts";
      "Use active learning techniques" ]
    now.

(** The list [insights] as [generateInsights] has filled it when it
    reaches [setDoc] *)
Definition collectInsights (metrics : PerformanceMetrics.t)
    (gaps : list LearningGap.t) (now : Date) : list AnalyticsInsight.t :=
  let insights : list AnalyticsInsight.t := [] in
  let insights :=
    (insights
     ++ map (achievementInsight now) (PerformanceMetrics.strengths metrics))%list in
  let insights :=
    (insights
     ++ map (weaknessInsight gaps now) (PerformanceMetrics.weaknesses metrics))%list in
  let insights :=
    if JS.ltb (PerformanceMetrics.consistency metrics) 50
    then (insights ++ [consistencyInsight now])%list else insights in
  let insights :=
    if JS.ltb (PerformanceMetrics.learningVelocity metrics) 3
    then (insights ++ [paceInsight now])%list else insights in
  insights.

(** [generateInsights]; the [insights] collection, which no other service
    touches, is passed in and handed back next to the returned list. *)
Definition generateInsights (studentId : string) (now : Date)
    (insightsCollection : gmap string InsightsDoc.t)
    : M (list AnalyticsInsight.t * gmap string InsightsDoc.t) :=
  let* metrics := ProgressTracker.getPerformanceMetrics studentId now in
  let* gaps := ProgressTracker.identifyLearningGaps studentId now in
  match metrics with
  | None => ret ([], insightsCollection)
  | Some metrics =>
      let insights := collectInsights metrics gaps now in
      if validDocId studentId
      then ret (insights,
                <[studentId := InsightsDoc.mk studentId insights now]>
                  insightsCollection)
      else throw "invalid-argument"
  end.

End AnalyticsService.

(** ** [StudyMatchmaker] *)

Module StudyMatchmaker.
Import Firestore Async.
Local Open Scope async_scope.

Definition calculateCompatibility (metrics1 metrics2 : PerformanceMetrics.t)
    (commonSubjects : list string) (preferences : StudyPreferences.t)
    : JS.number :=
  let score := 0 in
  let score :=
    score + (JS.of_nat (length commonSubjects)
             / JS.of_nat (length (StudyPreferences.subjects preferences))) * 40 in
  let scoreDiff :=
    JS.Math_abs (PerformanceMetrics.overallScore metrics1
                 - PerformanceMetrics.overallScore metrics2) in
  let score := score + JS.Math_max 0 (30 - scoreDiff) * (30 / 30) in
  let consistencyDiff :=
    JS.Math_abs (PerformanceMetrics.consistency metrics1
                 - PerformanceMetrics.consistency metrics2) in
  let score := score + JS.Math_max 0 (30 - consistencyDiff) * (30 / 30) in
  JS.Math_round score.

(** [preferences.subjects.filter(s => Object.keys(scores).includes(s))] *)
Definition commonSubjectsOf (preferences : StudyPreferences.t)
    (candidateMetrics : PerformanceMetrics.t) : list string :=
  List.filter
    (fun subject =>
       AnalyticsService.includes subject
         (Dict.keys (PerformanceMetrics.subjectScores candidateMetrics)))
    (StudyPreferences.subjects preferences).

(** The body of [for (const candidate of candidates)] *)
Definition considerCandidate (studentId : string)
    (preferences : StudyPreferences.t) (now : Date)
    (studentMetrics : PerformanceMetrics.t)
    (matches : list StudyMatch.t) (candidate : string * UserDoc)
    : M (list StudyMatch.t) :=
  let uid := fst candidate in
  let* candidateMetrics := ProgressTracker.getPerformanceMetrics uid now in
  match candidateMetrics with
  | None => ret matches
  | Some candidateMetrics =>
      let commonSubjects := commonSubjectsOf preferences candidateMetrics in
      if (length commonSubjects =? 0)%nat then ret matches else
      let compatibilityScore :=
        calculateCompatibility studentMetrics candidateMetrics
          commonSubjects preferences in
      if JS.geb compatibilityScore 60 then
        ret (matches ++
             [StudyMatch.mk (studentId +:+ "-" +:+ uid) studentId uid
                commonSubjects compatibilityScore preferences now])%list
      else ret matches
  end.

Definition byScoreDesc (a b : StudyMatch.t) : JS.number :=
  StudyMatch.compatibilityScore b - StudyMatch.compatibilityScore a.

Definition findStudyMatches (studentId : string)
    (preferences : StudyPreferences.t) (now : Date) : M (list StudyMatch.t) :=
  let* usersSnapshot :=
    read (fun s => List.filter (fun d => String.eqb (role (snd d)) "student")
                               (users s)) in
  let candidates :=
    List.filter (fun d => negb (String.eqb (fst d) studentId)) usersSnapshot in
  let* studentMetrics := ProgressTracker.getPerformanceMetrics studentId now in
  match studentMetrics with
  | None => ret []
  | Some studentMetrics =>
      let* matches :=
        for_fold candidates []
          (considerCandidate studentId preferences now studentMetrics) in
      let matches := JS.sort byScoreDesc matches in
      let* _ :=
        for_each (JS.slice0 5 matches)
          (fun m => write (set_studyMatch (StudyMatch.matchId m) m)) in
      ret (JS.slice0 5 matches)
  end.

End StudyMatchmaker.

(** ** The vocabulary of the specification *)

Module Spec.

(** The sum of a list of numbers, by recursion on the list *)
Fixpoint total (xs : list Q) : Q :=
  match xs with
  | [] => 0
  | x :: xs' => x + total xs'
  end.



(** The grade scale: >=90 A+, >=85 A, >=80 B+, >=75 B, >=70 C+, >=65 C,
    >=60 D, else F *)
Definition gradeScale (score : Q) (grade : string) : Prop :=
  (90 <= score /\ grade = "A+")
  \/ (85 <= score /\ score < 90 /\ grade = "A")
  \/ (80 <= score /\ score < 85 /\ grade = "B+")
  \/ (75 <= score /\ score < 80 /\ grade = "B")
  \/ (70 <= score /\ score < 75 /\ grade = "C+")
  \/ (65 <= score /\ score < 70 /\ grade = "C")
  \/ (60 <= score /\ score < 65 /\ grade = "D")
  \/ (score < 60 /\ grade = "F").

(** Two snapshots that differ at most in [lastUpdated] *)
Definition sameExceptLastUpdated (a b : PerformanceMetrics.t) : Prop :=
  PerformanceMetrics.studentId a = PerformanceMetrics.studentId b
  /\ PerformanceMetrics.overallScore a = PerformanceMetrics.overallScore b
  /\ PerformanceMetrics.subjectScores a = PerformanceMetrics.subjectScores b
  /\ PerformanceMetrics.strengths a = PerformanceMetrics.strengths b
  /\ PerformanceMetrics.weaknesses a = PerformanceMetrics.weaknesses b
  /\ PerformanceMetrics.learningVelocity a = PerformanceMetrics.learningVelocity b
  /\ PerformanceMetrics.consistency a = PerformanceMetrics.consistency b.

(** The events that are evidence for the gap stored under key [k] *)
Definition evidenceFor (k : string) (e : StudentProgress.t) : bool :=
  ProgressTracker.qualifies e && String.eqb (ProgressTracker.gapKey e) k.

(** The qualifying events of the pair (subject, topic) *)
Definition evidenceOf (subject topic : string) (e : StudentProgress.t) : bool :=
  ProgressTracker.qualifies e
  && String.eqb (StudentProgress.subject e) subject
  && String.eqb (StudentProgress.topic e) topic.

(** No two events of the history carry different (subject, topic) pairs
    under one key. *)
Definition collisionFree (l : list StudentProgress.t) : Prop :=
  forall e e', In e l -> In e' l ->
    ProgressTracker.gapKey e = ProgressTracker.gapKey e' ->
    StudentProgress.subject e = StudentProgress.subject e'
    /\ StudentProgress.topic e = StudentProgress.topic e'.

(** The priority scale: high below 40, medium from 40 up to 60, low from
    60 on *)
Definition priorityScale (score : Q) (p : Priority) : Prop :=
  (p = high <-> score < 40)
  /\ (p = medium <-> 40 <= score /\ score < 60)
  /\ (p = low <-> 60 <= score).

(** A match that may be returned: its compatibilityScore is at least 60 *)
Definition acceptable (m : StudyMatch.t) : Prop :=
  60 <= StudyMatch.compatibilityScore m.

(** An event that may stand in front of another in a history: it is not
    older. *)
Definition notOlder (a b : StudentProgress.t) : Prop :=
  (StudentProgress.completedAt b <= StudentProgress.completedAt a)%Z.

(** A match that may stand in front of another in a ranking: its score is
    not lower. *)
Definition notWorse (a b : StudyMatch.t) : Prop :=
  StudyMatch.compatibilityScore b <= StudyMatch.compatibilityScore a.

(** The difficulty levels as steps of a ladder *)
Definition level (d : Difficulty) : Z :=
  match d with
  | beginner => 0
  | intermediate => 1
  | advanced => 2
  end.

(** What every match that [findStudyMatches] builds for a student looks
    like: it pairs the student with another user of role student, is named
    after the pair, and shares at least one of the preferred subjects. *)
Definition matchFor (studentId : string) (preferences : StudyPreferences.t)
    (now : Date) (users : list (string * Firestore.UserDoc))
    (m : StudyMatch.t) : Prop :=
  StudyMatch.student1 m = studentId
  /\ StudyMatch.student2 m <> studentId
  /\ (exists d, In (StudyMatch.student2 m, d) users
                /\ Firestore.role d = "student")
  /\ StudyMatch.matchId m = studentId +:+ "-" +:+ StudyMatch.student2 m
  /\ StudyMatch.commonSubjects m <> []
  /\ (forall subject, In subject (StudyMatch.commonSubjects m) ->
        In subject (StudyPreferences.subjects preferences))
  /\ 60 <= StudyMatch.compatibilityScore m
  /\ StudyMatch.compatibilityScore m <= 100
  /\ StudyMatch.studyPreferences m = preferences
  /\ StudyMatch.matchedAt m = now.

End Spec.

(** ** Sample data *)

Module Sample.
Import Firestore.

Definition event (studentId subject topic : string) (completedAt : Date)
    (score attempts : JS.number) : StudentProgress.t :=
  StudentProgress.mk studentId subject topic completedAt score 30 beginner
    attempts.

Definition emptyStore : Store := mkStore [] ∅ ∅ ∅ ∅ [].

Definition metricsOf (studentId : string) (overallScore consistency : JS.number)
    : PerformanceMetrics.t :=
  PerformanceMetrics.mk studentId overallScore [("Math", overallScore)]
    [] [] 0 consistency 0%Z.

Definition twoPerfect : list StudentProgress.t :=
  [ event "ann" "Math" "Algebra" 2000 100 1;
    event "ann" "Math" "Geometry" 1000 100 1 ].

(** One student with three events *)
Definition annStore : Store :=
  mkStore
    [ event "ann" "Math" "Algebra" 1000 80 1;
      event "ann" "Physics" "Optics" 3000 55 1;
      event "bob" "Math" "Algebra" 2500 10 1;
      event "ann" "Math" "Geometry" 2000 90 3 ]
    ∅ ∅ ∅ ∅ [("ann", mkUser "student"); ("bob", mkUser "student")].

Definition mathOnly : StudyPreferences.t :=
  StudyPreferences.mk ["Math"] evening visual ["Pass the exam"].

(** Two students with persisted snapshots of equal overallScore and
    consistency, and a teacher *)
Definition pairStore : Store :=
  mkStore []
    (<["ann" := metricsOf "ann" 80 50]>
       (<["cat" := metricsOf "cat" 80 50]> ∅))
    ∅ ∅ ∅
    [("ann", mkUser "student"); ("cat", mkUser "student");
     ("tom", mkUser "teacher")].

(** Two events of one student whose (subject, topic) pairs differ while
    the strings [subject-topic] coincide *)
Definition hyphenated : StudentProgress.t :=
  event "ann" "Math-Algebra" "Linear" 2000 30 1.

Definition plain : StudentProgress.t :=
  event "ann" "Math" "Algebra-Linear" 1000 30 1.

Definition collisionStore : Store :=
  mkStore [hyphenated; plain] ∅ ∅ ∅ ∅ [("ann", mkUser "student")].

(** A history whose second qualifying event has a topic with a slash *)
Definition slashStore : Store :=
  mkStore
    [ event "ann" "Networks" "TCP/IP" 1000 30 1;
      event "ann" "Math" "Algebra" 2000 30 1 ]
    ∅ ∅ ∅ ∅ [("ann", mkUser "student")].

(** Two events with whole-number scores, one of them far outside the
    range of the data model *)
Definition largeScores : list StudentProgress.t :=
  [ event "ann" "Math" "Algebra" 2000 100000000000000000 1;
    event "ann" "Math" "Geometry" 1000 50 1 ].

(** Three events whose scores are the doubles nearest to 74.8, 75.1 and
    75.1 *)
Definition fractionalScores : list StudentProgress.t :=
  [ event "ann" "Math" "Algebra" 3000
      (5263582064489267 # 70368744177664) 1;
    event "ann" "Math" "Geometry" 2000
      (5284692687742566 # 70368744177664) 1;
    event "ann" "Math" "Sets" 1000
      (5284692687742566 # 70368744177664) 1 ].

End Sample.

(** ** Properties of [ProgressTracker] *)

Section ProgressTrackerFacts.
Import Firestore Async ProgressTracker.

Lemma fold_sum_total {A} (f : A -> Q) (l : list A) (a : Q) :
  fold_left (fun sum p => sum + f p) l a == a + Spec.total (map f l).
Proof.
  revert a. induction l as [|x l IH]; intros a; simpl.
  - ring.
  - rewrite IH. ring.
Qed.

Lemma sumScores_total (l : list StudentProgress.t) :
  sumScores l == Spec.total (map StudentProgress.score l).
Proof.
  unfold sumScores. rewrite (fold_sum_total StudentProgress.score). ring.
Qed.

Lemma updatePerformanceMetrics_nonempty studentId now s :
  studentHistory studentId s <> [] ->
  updatePerformanceMetrics studentId now s
  = Returned
      (Some (computeMetrics studentId now (studentHistory studentId s)))
      (set_performanceMetrics studentId
         (computeMetrics studentId now (studentHistory studentId s)) s).
Proof.
  intros Hne. unfold updatePerformanceMetrics, getStudentProgress, bind, read.
  destruct (studentHistory studentId s) as [|e l] eqn:Hh; [congruence|].
  reflexivity.
Qed.

Lemma updatePerformanceMetrics_empty studentId now s :
  studentHistory studentId s = [] ->
  updatePerformanceMetrics studentId now s = Returned None s.
Proof.
  intros He. unfold updatePerformanceMetrics, getStudentProgress, bind, read.
  rewrite He. reflexivity.
Qed.

End ProgressTrackerFacts.

Example overallScore_ann :
  option_map (option_map PerformanceMetrics.overallScore)
    (Async.returned
       (ProgressTracker.updatePerformanceMetrics "ann" 5000 Sample.annStore))
  = Some (Some (225 # 3)).
Proof. vm_compute. reflexivity. Qed.

(** C6. A history of fewer than seven events has consistency 50, whatever
    its events are: [calculateConsistency] returns 50, and so does the
    [consistency] field of the snapshot that recomputation builds from it. *)
Theorem consistency_sentinel (now : Date) (progress : list StudentProgress.t) :
  (length progress < 7)%nat ->
  ProgressTracker.calculateConsistency now progress = 50
  /\ forall studentId s,
       ProgressTracker.studentHistory studentId s = progress ->
       match Async.returned
               (ProgressTracker.updatePerformanceMetrics studentId now s) with
       | Some (Some m) => PerformanceMetrics.consistency m = 50
       | Some None => progress = []
       | None => False
       end.
Proof.
  intros Hlen.
  assert (Hc : ProgressTracker.calculateConsistency now progress = 50).
  { unfold ProgressTracker.calculateConsistency.
    destruct (Nat.ltb_spec (length progress) 7); [reflexivity | lia]. }
  split; [exact Hc|].
  intros studentId s Hh.
  destruct progress as [|e l] eqn:Hp.
  - rewrite updatePerformanceMetrics_empty by assumption. reflexivity.
  - rewrite updatePerformanceMetrics_nonempty by (rewrite Hh; discriminate).
    cbn [Async.returned ProgressTracker.computeMetrics
         PerformanceMetrics.consistency].
    rewrite Hh. exact Hc.
Qed.

Lemma consistency_sentinel_witness :
  ProgressTracker.calculateConsistency 5000
    (ProgressTracker.studentHistory "ann" Sample.annStore) = 50
  /\ match Async.returned
             (ProgressTracker.updatePerformanceMetrics "ann" 5000
                Sample.annStore) with
     | Some (Some m) => PerformanceMetrics.consistency m = 50
     | Some None => ProgressTracker.studentHistory "ann" Sample.annStore = []
     | None => False
     end.
Proof.
  destruct (consistency_sentinel 5000
              (ProgressTracker.studentHistory "ann" Sample.annStore))
    as [H1 H2].
  - vm_compute. lia.
  - split; [exact H1 | exact (H2 "ann" Sample.annStore eq_refl)].
Defined.

(** ** Properties of [DifficultyAdjuster] *)

(** C3. With fewer than three recent events [adjustDifficulty] returns the
    current difficulty, for every level, every metrics value and every such
    list of events. *)
Theorem adjustDifficulty_needs_three_events (current : Difficulty)
    (recentPerformance : list StudentProgress.t)
    (metrics : PerformanceMetrics.t) :
  (length recentPerformance < 3)%nat ->
  DifficultyAdjuster.adjustDifficulty current recentPerformance metrics
  = current.
Proof.
  intros Hlen. unfold DifficultyAdjuster.adjustDifficulty.
  destruct (Nat.ltb_spec (length recentPerformance) 3); [reflexivity | lia].
Qed.

Lemma adjustDifficulty_needs_three_events_witness :
  DifficultyAdjuster.adjustDifficulty beginner Sample.twoPerfect
    (Sample.metricsOf "ann" 100 100)
  = beginner.
Proof.
  apply (adjustDifficulty_needs_three_events beginner Sample.twoPerfect
           (Sample.metricsOf "ann" 100 100)).
  simpl. lia.
Defined.

(** C4. The learning speed multiplier lies in [0.5, 1.5] for every metrics
    value; it is 0.5 when overallScore and consistency are both 0, and 1.5
    when both are 100. *)
Theorem learning_speed_multiplier_range (metrics : PerformanceMetrics.t) :
  0.5 <= DifficultyAdjuster.getLearningSpeadMultiplier metrics
  /\ DifficultyAdjuster.getLearningSpeadMultiplier metrics <= 1.5
  /\ (forall studentId subjectScores strengths weaknesses velocity updated,
        DifficultyAdjuster.getLearningSpeadMultiplier
          (PerformanceMetrics.mk studentId 0 subjectScores strengths
             weaknesses velocity 0 updated) == 0.5)
  /\ (forall studentId subjectScores strengths weaknesses velocity updated,
        DifficultyAdjuster.getLearningSpeadMultiplier
          (PerformanceMetrics.mk studentId 100 subjectScores strengths
             weaknesses velocity 100 updated) == 1.5).
Proof.
  unfold DifficultyAdjuster.getLearningSpeadMultiplier, JS.Math_max, JS.Math_min.
  repeat split.
  - apply Q.le_max_l.
  - apply Q.max_lub; [discriminate | apply Q.le_min_l].
Qed.

(** ** Properties of [AnalyticsService] *)

Section GradeFacts.
Import AnalyticsService.

Lemma geb_true (x y : Q) : JS.geb x y = true -> y <= x.
Proof. unfold JS.geb. apply Qle_bool_imp_le. Qed.

Lemma geb_false (x y : Q) : JS.geb x y = false -> x < y.
Proof.
  unfold JS.geb. intros H. apply Qnot_le_lt. intros Hle.
  apply Qle_bool_iff in Hle. congruence.
Qed.

Lemma calculateOverallGrade_scale (score : Q) :
  Spec.gradeScale score (calculateOverallGrade score).
Proof.
  unfold calculateOverallGrade, Spec.gradeScale.
  repeat
    match goal with
    | |- context [JS.geb score ?c] =>
        let H := fresh "H" in
        destruct (JS.geb score c) eqn:H;
        [apply geb_true in H | apply geb_false in H]
    end;
    tauto.
Qed.

Lemma subjectGrade_same (score : Q) :
  subjectGrade score = calculateOverallGrade score.
Proof. reflexivity. Qed.

End GradeFacts.

(** C7. Report generation grades on the inclusive scale >=90 A+, >=85 A,
    >=80 B+, >=75 B, >=70 C+, >=65 C, >=60 D, else F: the grade of every
    subject report is the scale's grade of its average score and the overall
    grade is the scale's grade of the overall score; 90 gives A+ and 89.99
    gives A. *)
Theorem report_grades_follow_scale :
  (forall metrics entry,
     Spec.gradeScale
       (SubjectReport.score (AnalyticsService.subjectReport metrics entry))
       (SubjectReport.grade (AnalyticsService.subjectReport metrics entry)))
  /\ (forall studentId startDate endDate now progress metrics,
        Spec.gradeScale
          (PerformanceMetrics.overallScore metrics)
          (StudentReport.overallGrade
             (AnalyticsService.buildReport studentId startDate endDate now
                progress metrics)))
  /\ (forall score,
        Spec.gradeScale score (AnalyticsService.subjectGrade score)
        /\ Spec.gradeScale score (AnalyticsService.calculateOverallGrade score))
  /\ AnalyticsService.subjectGrade 90 = "A+"
  /\ AnalyticsService.calculateOverallGrade 90 = "A+"
  /\ AnalyticsService.subjectGrade 89.99 = "A"
  /\ AnalyticsService.calculateOverallGrade 89.99 = "A".
Proof.
  split; [|split; [|split]].
  - intros metrics [subject progressList].
    cbn [AnalyticsService.subjectReport SubjectReport.score SubjectReport.grade].
    rewrite subjectGrade_same. apply calculateOverallGrade_scale.
  - intros. cbn [AnalyticsService.buildReport StudentReport.overallGrade].
    apply calculateOverallGrade_scale.
  - intros score. rewrite subjectGrade_same.
    split; apply calculateOverallGrade_scale.
  - repeat split.
Qed.

Section MetricsLookupFacts.
Import Firestore Async ProgressTracker.

Lemma studentHistory_set_performanceMetrics studentId k m s :
  studentHistory studentId (set_performanceMetrics k m s)
  = studentHistory studentId s.
Proof. reflexivity. Qed.

Lemma set_performanceMetrics_twice k m s :
  set_performanceMetrics k m (set_performanceMetrics k m s)
  = set_performanceMetrics k m s.
Proof.
  unfold set_performanceMetrics. cbn [performanceMetrics progress
    learningGaps reports studyMatches users].
  rewrite insert_insert_eq. reflexivity.
Qed.

(** The lazy lookup, case by case: a persisted snapshot is returned as it
    is; without one the snapshot is recomputed, which yields nothing
    exactly when the student has no events. *)
Lemma getPerformanceMetrics_cases studentId now s :
  getPerformanceMetrics studentId now s
  = match performanceMetrics s !! studentId with
    | Some data => Returned (Some data) s
    | None =>
        match studentHistory studentId s with
        | [] => Returned None s
        | _ :: _ =>
            Returned
              (Some (computeMetrics studentId now (studentHistory studentId s)))
              (set_performanceMetrics studentId
                 (computeMetrics studentId now (studentHistory studentId s)) s)
        end
    end.
Proof.
  unfold getPerformanceMetrics, bind, read.
  destruct (performanceMetrics s !! studentId) as [data|]; [reflexivity|].
  destruct (studentHistory studentId s) as [|e l] eqn:Hh.
  - apply updatePerformanceMetrics_empty; assumption.
  - rewrite <- Hh. apply updatePerformanceMetrics_nonempty.
    rewrite Hh. discriminate.
Qed.

Lemma getPerformanceMetrics_returns studentId now s :
  exists r s', getPerformanceMetrics studentId now s = Returned r s'.
Proof.
  rewrite getPerformanceMetrics_cases.
  destruct (performanceMetrics s !! studentId); [eauto|].
  destruct (studentHistory studentId s); eauto.
Qed.

Lemma getPerformanceMetrics_nothing studentId now s s' :
  getPerformanceMetrics studentId now s = Returned None s' ->
  s' = s /\ performanceMetrics s !! studentId = None
  /\ studentHistory studentId s = [].
Proof.
  rewrite getPerformanceMetrics_cases.
  destruct (performanceMetrics s !! studentId); [discriminate|].
  destruct (studentHistory studentId s); [|discriminate].
  intros H. inversion H. auto.
Qed.

End MetricsLookupFacts.

(** C8. [generateStudentReport] throws when the metrics lookup for the
    student yields nothing, which happens exactly when no snapshot is
    persisted and the student has no events; the store is then left as it
    was, so no report is persisted.  Otherwise it returns the report and
    persists it under its [reportId]. *)
Theorem generateStudentReport_requires_metrics (studentId : string)
    (startDate endDate now : Date) (s : Firestore.Store) :
  match ProgressTracker.getPerformanceMetrics studentId now s with
  | Async.Returned None _ =>
      Firestore.performanceMetrics s !! studentId = None
      /\ ProgressTracker.studentHistory studentId s = []
      /\ AnalyticsService.generateStudentReport studentId startDate endDate now s
         = Async.Thrown "No performance data available" s
  | Async.Returned (Some metrics) s' =>
      let report :=
        AnalyticsService.buildReport studentId startDate endDate now
          (ProgressTracker.studentHistory studentId s) metrics in
      AnalyticsService.generateStudentReport studentId startDate endDate now s
      = Async.Returned report
          (Firestore.set_report (StudentReport.reportId report) report s')
  | Async.Thrown _ _ => False
  end.
Proof.
  destruct (ProgressTracker.getPerformanceMetrics studentId now s)
    as [[metrics|] s'|msg s'] eqn:Hget.
  - unfold AnalyticsService.generateStudentReport, Async.bind,
      ProgressTracker.getStudentProgress, Async.read.
    rewrite Hget. reflexivity.
  - destruct (getPerformanceMetrics_nothing _ _ _ _ Hget) as (-> & Hm & Hh).
    repeat split; try assumption.
    unfold AnalyticsService.generateStudentReport, Async.bind,
      ProgressTracker.getStudentProgress, Async.read.
    rewrite Hget. reflexivity.
  - destruct (getPerformanceMetrics_returns studentId now s) as (r & s'' & H).
    congruence.
Qed.

Example generateStudentReport_no_data :
  AnalyticsService.generateStudentReport "zed" 0 10000 5000 Sample.annStore
  = Async.Thrown "No performance data available" Sample.annStore.
Proof. vm_compute. reflexivity. Qed.

(** C9. Recomputing a student's metrics twice in sequence at one instant,
    with no event recorded in between, yields the same snapshot both times
    (so the two agree on every field other than [lastUpdated]), and the
    second run leaves the store as the first left it. *)
Theorem recompute_twice_same_snapshot (studentId : string) (now : Date)
    (s : Firestore.Store) :
  exists r1 r2 s1 s2,
    ProgressTracker.updatePerformanceMetrics studentId now s
    = Async.Returned r1 s1
    /\ ProgressTracker.updatePerformanceMetrics studentId now s1
       = Async.Returned r2 s2
    /\ option_Forall2 Spec.sameExceptLastUpdated r1 r2
    /\ r1 = r2
    /\ s1 = s2.
Proof.
  destruct (ProgressTracker.studentHistory studentId s) as [|e l] eqn:Hh.
  - exists None, None, s, s.
    rewrite updatePerformanceMetrics_empty by assumption.
    repeat split. constructor.
  - set (m := ProgressTracker.computeMetrics studentId now
                (ProgressTracker.studentHistory studentId s)).
    exists (Some m), (Some m),
      (Firestore.set_performanceMetrics studentId m s),
      (Firestore.set_performanceMetrics studentId m s).
    split; [apply updatePerformanceMetrics_nonempty; rewrite Hh; discriminate|].
    split.
    + rewrite updatePerformanceMetrics_nonempty
        by (rewrite studentHistory_set_performanceMetrics, Hh; discriminate).
      rewrite studentHistory_set_performanceMetrics.
      fold m. rewrite set_performanceMetrics_twice. reflexivity.
    + repeat split. constructor. repeat split.
Qed.

(** A later instant moves the trailing windows: the same history has three
    events in the week before instant 5000 and none eight days later. *)
Example recompute_later_velocity :
  let history := ProgressTracker.studentHistory "ann" Sample.annStore in
  PerformanceMetrics.learningVelocity
    (ProgressTracker.computeMetrics "ann" 5000 history) = 3
  /\ PerformanceMetrics.learningVelocity
       (ProgressTracker.computeMetrics "ann"
          (5000 + 8 * ProgressTracker.msPerDay) history) = 0.
Proof. vm_compute. split; reflexivity. Qed.

(** ** Properties of [StudyMatchmaker] *)

(** C10. When the requesting student has neither a persisted snapshot nor
    any progress event, [findStudyMatches] returns the empty list and leaves
    the store as it was (no StudyMatch is persisted), whatever the
    candidates and the preferences are. *)
Theorem findStudyMatches_without_metrics (studentId : string)
    (preferences : StudyPreferences.t) (now : Date) (s : Firestore.Store) :
  Firestore.performanceMetrics s !! studentId = None ->
  ProgressTracker.studentHistory studentId s = [] ->
  StudyMatchmaker.findStudyMatches studentId preferences now s
  = Async.Returned [] s.
Proof.
  intros Hm Hh.
  unfold StudyMatchmaker.findStudyMatches, Async.bind, Async.read.
  rewrite getPerformanceMetrics_cases, Hm, Hh. reflexivity.
Qed.

Lemma findStudyMatches_without_metrics_witness :
  StudyMatchmaker.findStudyMatches "zed"
    (StudyPreferences.mk ["Math"] morning visual []) 5000 Sample.annStore
  = Async.Returned [] Sample.annStore.
Proof.
  apply (findStudyMatches_without_metrics "zed"
           (StudyPreferences.mk ["Math"] morning visual []) 5000
           Sample.annStore).
  - vm_compute. reflexivity.
  - vm_compute. reflexivity.
Defined.

Section MatchmakerFacts.
Import Firestore Async StudyMatchmaker.

Lemma insert_sorted_Forall {A} (cmp : A -> A -> Q) (P : A -> Prop) x l :
  P x -> Forall P l -> Forall P (JS.insert_sorted cmp x l).
Proof.
  intros Hx Hl. induction Hl as [|y l Hy Hl IH]; simpl.
  - repeat constructor; assumption.
  - destruct (JS.gtb (cmp x y) 0); repeat constructor; assumption.
Qed.

Lemma sort_Forall {A} (cmp : A -> A -> Q) (P : A -> Prop) l :
  Forall P l -> Forall P (JS.sort cmp l).
Proof.
  unfold JS.sort. induction 1 as [|x l Hx Hl IH]; simpl.
  - constructor.
  - apply insert_sorted_Forall; assumption.
Qed.

Lemma slice0_Forall {A} (P : A -> Prop) n l :
  Forall P l -> Forall P (JS.slice0 n l).
Proof.
  unfold JS.slice0. intros Hl. revert n.
  induction Hl as [|x l Hx Hl IH]; intros [|n]; simpl; constructor; auto.
Qed.

Lemma slice0_length {A} n (l : list A) : (length (JS.slice0 n l) <= n)%nat.
Proof. unfold JS.slice0. apply firstn_le_length. Qed.

Lemma for_each_write_returns {A} (f : A -> Store -> Store) l s :
  exists s', for_each l (fun x => write (f x)) s = Returned tt s'.
Proof.
  revert s. induction l as [|x l IH]; intros s; simpl.
  - eexists. reflexivity.
  - unfold bind, write. apply IH.
Qed.

Lemma considerCandidate_keeps studentId preferences now studentMetrics
    matches candidate s :
  Forall Spec.acceptable matches ->
  exists matches' s',
    considerCandidate studentId preferences now studentMetrics matches
      candidate s = Returned matches' s'
    /\ Forall Spec.acceptable matches'.
Proof.
  intros Hm. unfold considerCandidate, bind.
  destruct (getPerformanceMetrics_returns (fst candidate) now s)
    as ([cm|] & s' & ->); [|eauto].
  destruct (length (commonSubjectsOf preferences cm) =? 0)%nat; [eauto|].
  destruct (JS.geb _ 60) eqn:Hge; [|eauto].
  do 2 eexists. split; [reflexivity|].
  apply Forall_app. split; [assumption|].
  constructor; [|constructor].
  apply Qle_bool_imp_le. exact Hge.
Qed.

Lemma scan_candidates_keeps studentId preferences now studentMetrics
    candidates matches s :
  Forall Spec.acceptable matches ->
  exists matches' s',
    for_fold candidates matches
      (considerCandidate studentId preferences now studentMetrics) s
    = Returned matches' s'
    /\ Forall Spec.acceptable matches'.
Proof.
  revert matches s.
  induction candidates as [|c candidates IH]; intros matches s Hm; simpl.
  - eauto.
  - unfold bind.
    destruct (considerCandidate_keeps studentId preferences now
                studentMetrics matches c s Hm) as (ms & s1 & -> & Hms).
    apply IH. assumption.
Qed.

Lemma Math_round_wd (x y : Q) : x == y -> JS.Math_round x = JS.Math_round y.
Proof. intros H. unfold JS.Math_round. rewrite H. reflexivity. Qed.

Lemma similarity_full (a b : Q) :
  a == b -> JS.Math_max 0 (30 - JS.Math_abs (a - b)) * (30 / 30) == 30.
Proof.
  intros H. unfold JS.Math_max, JS.Math_abs.
  assert (Hz : a - b == 0) by (rewrite H; ring).
  rewrite Hz. reflexivity.
Qed.

End MatchmakerFacts.

(** C5. [findStudyMatches] always returns, with at most five matches, each
    of compatibilityScore at least 60.  With [preferences.subjects] equal to
    ["Math"], a candidate that has a Math score and whose overallScore and
    consistency equal the student's scores 40+30+30 = 100. *)
Theorem findStudyMatches_top_five (studentId : string)
    (preferences : StudyPreferences.t) (now : Date) (s : Firestore.Store) :
  (exists matches s',
     StudyMatchmaker.findStudyMatches studentId preferences now s
     = Async.Returned matches s'
     /\ (length matches <= 5)%nat
     /\ Forall (fun m => 60 <= StudyMatch.compatibilityScore m) matches)
  /\ (forall studentMetrics candidateMetrics,
        StudyPreferences.subjects preferences = ["Math"] ->
        AnalyticsService.includes "Math"
          (Dict.keys (PerformanceMetrics.subjectScores candidateMetrics))
        = true ->
        PerformanceMetrics.overallScore studentMetrics
        == PerformanceMetrics.overallScore candidateMetrics ->
        PerformanceMetrics.consistency studentMetrics
        == PerformanceMetrics.consistency candidateMetrics ->
        StudyMatchmaker.commonSubjectsOf preferences candidateMetrics = ["Math"]
        /\ StudyMatchmaker.calculateCompatibility studentMetrics
             candidateMetrics
             (StudyMatchmaker.commonSubjectsOf preferences candidateMetrics)
             preferences
           = 100).
Proof.
  split.
  - unfold StudyMatchmaker.findStudyMatches, Async.bind, Async.read.
    destruct (getPerformanceMetrics_returns studentId now s)
      as ([sm|] & s1 & ->).
    + match goal with
      | |- context [Async.for_fold ?cs [] ?body s1] =>
          destruct (scan_candidates_keeps studentId preferences now sm cs [] s1
                      (List.Forall_nil _)) as (ms & s2 & -> & Hms)
      end.
      match goal with
      | |- context [Async.for_each ?l ?body s2] =>
          destruct (for_each_write_returns
                      (fun m => Firestore.set_studyMatch (StudyMatch.matchId m) m)
                      l s2) as (s3 & ->)
      end.
      do 2 eexists. split; [reflexivity|]. split.
      * apply slice0_length.
      * apply slice0_Forall, sort_Forall. exact Hms.
    + do 2 eexists. split; [reflexivity|]. split; [simpl; lia | constructor].
  - intros sm cm Hsub Hinc Ho Hc.
    assert (Hcommon : StudyMatchmaker.commonSubjectsOf preferences cm = ["Math"]).
    { unfold StudyMatchmaker.commonSubjectsOf. rewrite Hsub. simpl.
      rewrite Hinc. reflexivity. }
    split; [exact Hcommon|].
    rewrite Hcommon. unfold StudyMatchmaker.calculateCompatibility.
    rewrite Hsub.
    transitivity (JS.Math_round 100); [|reflexivity].
    apply Math_round_wd.
    rewrite (similarity_full _ _ Ho), (similarity_full _ _ Hc).
    reflexivity.
Qed.

Lemma findStudyMatches_top_five_witness :
  (exists matches s',
     StudyMatchmaker.findStudyMatches "ann" Sample.mathOnly 5000
       Sample.pairStore
     = Async.Returned matches s'
     /\ (length matches <= 5)%nat
     /\ Forall (fun m => 60 <= StudyMatch.compatibilityScore m) matches)
  /\ StudyMatchmaker.commonSubjectsOf Sample.mathOnly
       (Sample.metricsOf "cat" 80 50) = ["Math"]
  /\ StudyMatchmaker.calculateCompatibility
       (Sample.metricsOf "ann" 80 50) (Sample.metricsOf "cat" 80 50)
       (StudyMatchmaker.commonSubjectsOf Sample.mathOnly
          (Sample.metricsOf "cat" 80 50))
       Sample.mathOnly
     = 100.
Proof.
  destruct (findStudyMatches_top_five "ann" Sample.mathOnly 5000
              Sample.pairStore) as [H1 H2].
  split; [exact H1|].
  apply (H2 (Sample.metricsOf "ann" 80 50) (Sample.metricsOf "cat" 80 50));
    reflexivity.
Defined.

Example findStudyMatches_identical_peer :
  option_map
    (map (fun m => (StudyMatch.student2 m, StudyMatch.compatibilityScore m)))
    (Async.returned
       (StudyMatchmaker.findStudyMatches "ann" Sample.mathOnly 5000
          Sample.pairStore))
  = Some [("cat", 100)].
Proof. vm_compute. reflexivity. Qed.

(** ** Learning gaps *)

Section DictFacts.
Context {K V : Type} `{EqDecision K}.
Implicit Types (d : Dict.t K V) (k : K) (v : V).

Lemma dict_set_absent k v d :
  Dict.get k d = None -> Dict.set k v d = (d ++ [(k, v)])%list.
Proof.
  induction d as [|[k' v'] d IH]; simpl; [reflexivity|].
  destruct (decide (k = k')); [discriminate|].
  intros Hn. rewrite IH by assumption. reflexivity.
Qed.

Lemma dict_get_app k d d' :
  Dict.get k (d ++ d')%list
  = match Dict.get k d with Some v => Some v | None => Dict.get k d' end.
Proof.
  induction d as [|[k' v'] d IH]; simpl; [reflexivity|].
  destruct (decide (k = k')); [reflexivity | exact IH].
Qed.

Lemma dict_get_In k v d : Dict.get k d = Some v -> In (k, v) d.
Proof.
  induction d as [|[k' v'] d IH]; simpl; [discriminate|].
  destruct (decide (k = k')) as [->|].
  - intros [= ->]. left. reflexivity.
  - intros Hg. right. apply IH. exact Hg.
Qed.

Lemma dict_wf_snoc k v d :
  Dict.wf d -> Dict.get k d = None -> Dict.wf (d ++ [(k, v)])%list.
Proof.
  intros Hwf Hn k' v' Hin. rewrite dict_get_app.
  apply in_app_or in Hin. destruct Hin as [Hin|[[= <- <-]|[]]].
  - rewrite (Hwf _ _ Hin). reflexivity.
  - rewrite Hn. simpl. destruct (decide (k = k)); congruence.
Qed.

End DictFacts.

Section GapFacts.
Import ProgressTracker Spec.
Variables (studentId : string) (now : Date).

Lemma gapMap_get l : forall acc k,
  Dict.get k (fold_left (gapStep studentId now) l acc)
  = match Dict.get k acc with
    | Some g => Some g
    | None => option_map (newGap studentId now) (List.find (evidenceFor k) l)
    end.
Proof.
  induction l as [|e l IH]; intros acc k; simpl.
  - destruct (Dict.get k acc); reflexivity.
  - rewrite IH. unfold gapStep, evidenceFor.
    destruct (qualifies e) eqn:Hq; simpl; [|reflexivity].
    destruct (String.eqb_spec (gapKey e) k) as [<-|Hne].
    + destruct (Dict.get (gapKey e) acc) as [g|] eqn:Hg.
      * rewrite Hg. reflexivity.
      * rewrite dict_set_absent, dict_get_app, Hg by assumption.
        simpl. destruct (decide (gapKey e = gapKey e)); congruence.
    + destruct (Dict.get (gapKey e) acc) as [g|] eqn:Hg; [reflexivity|].
      rewrite dict_set_absent, dict_get_app by assumption.
      destruct (Dict.get k acc); [reflexivity|].
      simpl. destruct (decide (k = gapKey e)); congruence.
Qed.

Lemma gapMap_wf l : forall acc,
  Dict.wf acc -> Dict.wf (fold_left (gapStep studentId now) l acc).
Proof.
  induction l as [|e l IH]; intros acc Hwf; simpl; [assumption|].
  apply IH. unfold gapStep.
  destruct (qualifies e); [|assumption].
  destruct (Dict.get (gapKey e) acc) eqn:Hg; [assumption|].
  rewrite dict_set_absent by assumption.
  apply dict_wf_snoc; assumption.
Qed.

(** A gap is emitted exactly for the keys that have evidence, and it is
    built from the first event that is evidence for its key. *)
Lemma collectGaps_by_key l g :
  In g (collectGaps studentId now l)
  <-> exists e,
        List.find (evidenceFor (gapKey e)) l = Some e
        /\ g = newGap studentId now e.
Proof.
  unfold collectGaps, Dict.values. split.
  - intros Hin. apply in_map_iff in Hin. destruct Hin as ([k g'] & <- & Hin).
    apply (gapMap_wf l []) in Hin; [|intros ? ? []].
    rewrite gapMap_get in Hin. simpl in Hin.
    destruct (List.find (evidenceFor k) l) as [e|] eqn:Hf; [|discriminate].
    injection Hin as <-. exists e. split; [|reflexivity].
    destruct (find_some _ _ Hf) as [_ He]. unfold evidenceFor in He.
    apply andb_prop in He. destruct He as [_ He].
    apply String.eqb_eq in He. rewrite He. exact Hf.
  - intros (e & Hf & ->).
    apply in_map_iff. exists (gapKey e, newGap studentId now e).
    split; [reflexivity|]. apply dict_get_In.
    rewrite gapMap_get. simpl. rewrite Hf. reflexivity.
Qed.

End GapFacts.

Section GapPairs.
Import ProgressTracker Spec.
Variables (studentId : string) (now : Date).

Lemma find_agree {A} (P R : A -> bool) (l : list A) :
  (forall x, In x l -> P x = R x) -> List.find P l = List.find R l.
Proof.
  induction l as [|x l IH]; intros Hag; simpl; [reflexivity|].
  rewrite <- (Hag x) by (left; reflexivity).
  destruct (P x); [reflexivity|].
  apply IH. intros y Hy. apply Hag. right. exact Hy.
Qed.

Lemma find_finds {A} (P : A -> bool) (l : list A) x :
  In x l -> P x = true -> exists y, List.find P l = Some y.
Proof.
  induction l as [|z l IH]; intros Hin Hp; simpl; [destruct Hin|].
  destruct (P z) eqn:Hz; [eauto|].
  destruct Hin as [->|Hin]; [congruence | auto].
Qed.

Lemma evidenceOf_true subject topic e :
  evidenceOf subject topic e = true
  <-> qualifies e = true
      /\ StudentProgress.subject e = subject
      /\ StudentProgress.topic e = topic.
Proof.
  unfold evidenceOf. rewrite !andb_true_iff, !String.eqb_eq. tauto.
Qed.

Lemma evidenceFor_true k e :
  evidenceFor k e = true <-> qualifies e = true /\ gapKey e = k.
Proof. unfold evidenceFor. rewrite andb_true_iff, String.eqb_eq. tauto. Qed.

Lemma evidence_agree l e :
  collisionFree l -> In e l ->
  forall x, In x l ->
    evidenceFor (gapKey e) x
    = evidenceOf (StudentProgress.subject e) (StudentProgress.topic e) x.
Proof.
  intros Hcf He x Hx.
  destruct (evidenceOf _ _ x) eqn:Hof.
  - apply evidenceOf_true in Hof. destruct Hof as (Hq & Hs & Ht).
    apply evidenceFor_true. split; [assumption|].
    unfold gapKey. rewrite Hs, Ht. reflexivity.
  - destruct (evidenceFor (gapKey e) x) eqn:Hfor; [|reflexivity].
    apply evidenceFor_true in Hfor. destruct Hfor as [Hq Hk].
    destruct (Hcf x e Hx He Hk) as [Hs Ht].
    rewrite <- Hof. symmetry. apply evidenceOf_true. auto.
Qed.

Lemma priorityOf_scale (score : Q) : priorityScale score (priorityOf score).
Proof.
  assert (Hlt : forall c, Qle_bool c score = false -> score < c).
  { intros c Hc. apply Qnot_le_lt. intros Hle.
    apply Qle_bool_iff in Hle. congruence. }
  unfold priorityScale, priorityOf, JS.ltb.
  destruct (Qle_bool 40 score) eqn:H40;
    [apply Qle_bool_iff in H40 | apply Hlt in H40];
    (destruct (Qle_bool 60 score) eqn:H60;
     [apply Qle_bool_iff in H60 | apply Hlt in H60]);
    simpl; repeat split; intros;
    try discriminate; try reflexivity; try assumption;
    try (exfalso; lra).
Qed.

(** X9. For a history without key collisions: a gap is emitted for a pair
    (subject, topic) exactly when the pair has a qualifying event, and the
    priority of the gap is the scale's priority of the score of the first
    qualifying event of the pair. *)
Lemma collectGaps_collision_free (l : list StudentProgress.t) :
  collisionFree l ->
  forall subject topic,
    ((exists g, In g (collectGaps studentId now l)
                /\ LearningGap.subject g = subject
                /\ LearningGap.topic g = topic)
     <-> (exists e, In e l /\ evidenceOf subject topic e = true))
    /\ (forall g, In g (collectGaps studentId now l) ->
          LearningGap.subject g = subject ->
          LearningGap.topic g = topic ->
          exists e, List.find (evidenceOf subject topic) l = Some e
                    /\ priorityScale (StudentProgress.score e)
                         (LearningGap.priority g)).
Proof.
  intros Hcf subject topic. split; [split|].
  - intros (g & Hin & Hs & Ht).
    apply collectGaps_by_key in Hin. destruct Hin as (e & Hf & ->).
    destruct (find_some _ _ Hf) as [He Hev].
    apply evidenceFor_true in Hev. destruct Hev as [Hq _].
    exists e. split; [assumption|]. apply evidenceOf_true. auto.
  - intros (e & He & Hev).
    apply evidenceOf_true in Hev. destruct Hev as (Hq & Hs & Ht).
    destruct (find_finds (evidenceFor (gapKey e)) l e He) as [e' Hf].
    { apply evidenceFor_true. auto. }
    destruct (find_some _ _ Hf) as [He' Hev'].
    apply evidenceFor_true in Hev'. destruct Hev' as [Hq' Hk].
    destruct (Hcf e' e He' He Hk) as [Hs' Ht'].
    exists (newGap studentId now e'). split; [|simpl; split; congruence].
    apply collectGaps_by_key. exists e'. rewrite Hk. auto.
  - intros g Hin Hs Ht.
    apply collectGaps_by_key in Hin. destruct Hin as (e & Hf & ->).
    simpl in Hs, Ht. subst subject topic.
    destruct (find_some _ _ Hf) as [He _].
    exists e. split.
    + rewrite <- Hf. symmetry. apply find_agree.
      apply evidence_agree; assumption.
    + simpl. apply priorityOf_scale.
Qed.

End GapPairs.

(** C2. The history of [Sample.collisionStore] holds two qualifying events
    of different (subject, topic) pairs, ("Math-Algebra", "Linear") and
    ("Math", "Algebra-Linear"), whose map keys are both
    "Math-Algebra-Linear".  [identifyLearningGaps] returns a single gap, for
    the first pair; the pair ("Math", "Algebra-Linear") has a qualifying
    event and no gap. *)
Theorem gap_key_collision :
  exists gaps s',
    ProgressTracker.identifyLearningGaps "ann" 5000 Sample.collisionStore
    = Async.Returned gaps s'
    /\ map (fun g => (LearningGap.subject g, LearningGap.topic g)) gaps
       = [("Math-Algebra", "Linear")]
    /\ In Sample.plain
          (ProgressTracker.studentHistory "ann" Sample.collisionStore)
    /\ Spec.evidenceOf "Math" "Algebra-Linear" Sample.plain = true
    /\ ~ (exists g, In g gaps
                    /\ LearningGap.subject g = "Math"
                    /\ LearningGap.topic g = "Algebra-Linear").
Proof.
  do 2 eexists. split; [vm_compute; reflexivity|].
  split; [reflexivity|]. split; [right; left; reflexivity|].
  split; [reflexivity|].
  intros (g & [<-|[]] & Hs & _). discriminate Hs.
Qed.


(** ** Sorting *)

Section SortFacts.
Context {A : Type} (cmp : A -> A -> Q) (R : A -> A -> Prop).
Hypothesis cmp_after : forall x y, JS.gtb (cmp x y) 0 = true -> R y x.
Hypothesis cmp_before : forall x y, JS.gtb (cmp x y) 0 = false -> R x y.
Hypothesis R_trans : forall x y z, R x y -> R y z -> R x z.

Lemma insert_sorted_perm x l : Permutation (JS.insert_sorted cmp x l) (x :: l).
Proof.
  induction l as [|y l IH]; simpl; [reflexivity|].
  destruct (JS.gtb (cmp x y) 0); [|reflexivity].
  rewrite IH. apply perm_swap.
Qed.

Lemma sort_perm l : Permutation (JS.sort cmp l) l.
Proof.
  unfold JS.sort. induction l as [|x l IH]; simpl; [reflexivity|].
  rewrite insert_sorted_perm, IH. reflexivity.
Qed.

Lemma insert_sorted_sorted x l :
  StronglySorted R l -> StronglySorted R (JS.insert_sorted cmp x l).
Proof.
  induction 1 as [|y l Hl IH Hy]; simpl.
  - repeat constructor.
  - destruct (JS.gtb (cmp x y) 0) eqn:Hc.
    + constructor; [exact IH|].
      rewrite insert_sorted_perm. constructor; [|exact Hy].
      apply cmp_after. exact Hc.
    + apply cmp_before in Hc.
      constructor; [constructor; assumption|].
      constructor; [exact Hc|].
      apply (List.Forall_impl _ (fun z Hz => R_trans x y z Hc Hz) Hy).
Qed.

Lemma sort_sorted l : StronglySorted R (JS.sort cmp l).
Proof.
  unfold JS.sort. induction l as [|x l IH]; simpl.
  - constructor.
  - apply insert_sorted_sorted. exact IH.
Qed.

End SortFacts.

Section HistoryFacts.
Import Firestore Async ProgressTracker.

Lemma gtb_pos (x : Q) : JS.gtb x 0 = true <-> 0 < x.
Proof.
  unfold JS.gtb. rewrite negb_true_iff. split.
  - intros H. apply Qnot_le_lt. intros Hle.
    apply Qle_bool_iff in Hle. congruence.
  - intros H. destruct (Qle_bool x 0) eqn:Hb; [|reflexivity].
    apply Qle_bool_iff in Hb. exfalso. apply (Qlt_not_le _ _ H Hb).
Qed.

Lemma gtb_nonpos (x : Q) : JS.gtb x 0 = false <-> x <= 0.
Proof.
  unfold JS.gtb. rewrite negb_false_iff. apply Qle_bool_iff.
Qed.

Lemma history_sorted l : StronglySorted Spec.notOlder (JS.sort newestFirst l).
Proof.
  apply sort_sorted; unfold Spec.notOlder, newestFirst.
  - intros x y H. apply gtb_pos in H.
    change 0 with (inject_Z 0) in H. rewrite <- Zlt_Qlt in H. lia.
  - intros x y H. apply gtb_nonpos in H.
    change 0 with (inject_Z 0) in H. rewrite <- Zle_Qle in H. lia.
  - intros x y z. lia.
Qed.

Lemma history_In studentId s e :
  In e (studentHistory studentId s)
  <-> In e (progress s) /\ StudentProgress.studentId e = studentId.
Proof.
  unfold studentHistory.
  rewrite (Permutation_in' (eq_refl e) (sort_perm newestFirst _)).
  rewrite filter_In, String.eqb_eq. reflexivity.
Qed.

End HistoryFacts.

(** X1. [getStudentProgress] returns the events of the student and no
    others, each as often as the collection holds it, newest first, and
    leaves the store as it was. *)
Theorem getStudentProgress_history (studentId : string) (s : Firestore.Store) :
  exists history,
    ProgressTracker.getStudentProgress studentId s = Async.Returned history s
    /\ (forall e, In e history
                  <-> In e (Firestore.progress s)
                      /\ StudentProgress.studentId e = studentId)
    /\ Permutation history
         (List.filter
            (fun p => String.eqb (StudentProgress.studentId p) studentId)
            (Firestore.progress s))
    /\ StronglySorted Spec.notOlder history.
Proof.
  exists (ProgressTracker.studentHistory studentId s).
  split; [reflexivity|]. split; [|split].
  - intros e. apply history_In.
  - apply sort_perm.
  - apply history_sorted.
Qed.

(** ** Recording progress and looking metrics up *)

Section RecordFacts.
Import Firestore Async ProgressTracker.

Lemma history_other_student studentId p s :
  StudentProgress.studentId p <> studentId ->
  studentHistory studentId (add_progress p s) = studentHistory studentId s.
Proof.
  intros Hne. unfold studentHistory, add_progress. cbn [progress].
  rewrite List.filter_app. simpl.
  destruct (String.eqb_spec (StudentProgress.studentId p) studentId);
    [contradiction|].
  rewrite app_nil_r. reflexivity.
Qed.

End RecordFacts.

(** X2. [recordProgress] stamps the event with the current instant, appends
    it to the progress collection and overwrites the student's snapshot with
    the one computed from the history that now includes the event; the
    histories and snapshots of all other students stay as they were. *)
Theorem recordProgress_refreshes_snapshot
    (studentId subject topic : string) (score timeSpent : Q)
    (difficulty : Difficulty) (attempts : Q) (now : Date)
    (s : Firestore.Store) :
  let p := StudentProgress.mk studentId subject topic now score timeSpent
             difficulty attempts in
  exists s',
    ProgressTracker.recordProgress
      (fun completedAt =>
         StudentProgress.mk studentId subject topic completedAt score
           timeSpent difficulty attempts) now s
    = Async.Returned p s'
    /\ Firestore.progress s' = (Firestore.progress s ++ [p])%list
    /\ In p (ProgressTracker.studentHistory studentId s')
    /\ Firestore.performanceMetrics s' !! studentId
       = Some (ProgressTracker.computeMetrics studentId now
                 (ProgressTracker.studentHistory studentId s'))
    /\ (forall other, other <> studentId ->
          ProgressTracker.studentHistory other s'
          = ProgressTracker.studentHistory other s
          /\ Firestore.performanceMetrics s' !! other
             = Firestore.performanceMetrics s !! other).
Proof.
  intros p.
  assert (Hin : In p (ProgressTracker.studentHistory studentId
                        (Firestore.add_progress p s))).
  { apply history_In. split; [|reflexivity].
    unfold Firestore.add_progress. cbn [Firestore.progress].
    apply in_or_app. right. left. reflexivity. }
  eexists. split.
  - unfold ProgressTracker.recordProgress, Async.bind, Async.write.
    fold p. cbn [StudentProgress.studentId p].
    rewrite updatePerformanceMetrics_nonempty; [reflexivity|].
    intros He. rewrite He in Hin. destruct Hin.
  - split; [reflexivity|]. split; [exact Hin|]. split.
    + unfold Firestore.set_performanceMetrics.
      cbn [Firestore.performanceMetrics]. apply lookup_insert_eq.
    + intros other Hne. split.
      * rewrite studentHistory_set_performanceMetrics.
        apply history_other_student. cbn. congruence.
      * unfold Firestore.set_performanceMetrics.
        cbn [Firestore.performanceMetrics Firestore.add_progress].
        apply lookup_insert_ne. congruence.
Qed.

(** X3. The lazy metrics lookup always returns; what it returns is what the
    store holds for the student afterwards; it returns nothing exactly when
    the student has neither a snapshot nor an event; it never touches the
    progress collection; and any later lookup, at whatever instant, returns
    the same snapshot without writing. *)
Theorem getPerformanceMetrics_materializes (studentId : string) (now : Date)
    (s : Firestore.Store) :
  exists r s',
    ProgressTracker.getPerformanceMetrics studentId now s = Async.Returned r s'
    /\ Firestore.performanceMetrics s' !! studentId = r
    /\ (r = None
        <-> Firestore.performanceMetrics s !! studentId = None
            /\ ProgressTracker.studentHistory studentId s = [])
    /\ Firestore.progress s' = Firestore.progress s
    /\ forall later,
         ProgressTracker.getPerformanceMetrics studentId later s'
         = Async.Returned r s'.
Proof.
  rewrite getPerformanceMetrics_cases.
  destruct (Firestore.performanceMetrics s !! studentId) as [data|] eqn:Hm.
  - exists (Some data), s. repeat split; try assumption; try discriminate.
    + intros [H _]. discriminate H.
    + intros later. rewrite getPerformanceMetrics_cases, Hm. reflexivity.
  - destruct (ProgressTracker.studentHistory studentId s) as [|e l] eqn:Hh.
    + exists None, s. repeat split; try assumption.
      intros later. rewrite getPerformanceMetrics_cases, Hm, Hh. reflexivity.
    + do 2 eexists. split; [reflexivity|]. split; [|split; [|split]].
      * unfold Firestore.set_performanceMetrics.
        cbn [Firestore.performanceMetrics]. apply lookup_insert_eq.
      * split; [discriminate | intros [_ H]; discriminate H].
      * reflexivity.
      * intros later. rewrite getPerformanceMetrics_cases.
        unfold Firestore.set_performanceMetrics at 1.
        cbn [Firestore.performanceMetrics].
        rewrite lookup_insert_eq. reflexivity.
Qed.

(** ** The snapshot computed from a history *)

Section DictSetFacts.
Context {K V : Type} `{EqDecision K}.
Implicit Types (d : Dict.t K V) (k : K) (v : V).

Lemma dict_get_set k k' v d :
  Dict.get k (Dict.set k' v d)
  = if decide (k = k') then Some v else Dict.get k d.
Proof.
  induction d as [|[k0 v0] d IH]; simpl.
  - destruct (decide (k = k')); reflexivity.
  - destruct (decide (k' = k0)) as [->|Hne]; simpl.
    + destruct (decide (k = k0)); reflexivity.
    + destruct (decide (k = k0)) as [->|Hne'].
      * destruct (decide (k0 = k')); [congruence | reflexivity].
      * exact IH.
Qed.

Lemma dict_get_keys k d : Dict.get k d = None <-> ~ In k (Dict.keys d).
Proof.
  induction d as [|[k0 v0] d IH]; simpl; [tauto|].
  destruct (decide (k = k0)) as [->|Hne].
  - split; [discriminate | intros Hn; exfalso; apply Hn; left; reflexivity].
  - rewrite IH. split; [intros Hn [Heq|Hin]; [congruence|tauto] | tauto].
Qed.

Lemma dict_keys_set k v d :
  Dict.keys (Dict.set k v d)
  = match Dict.get k d with
    | Some _ => Dict.keys d
    | None => (Dict.keys d ++ [k])%list
    end.
Proof.
  unfold Dict.keys.
  induction d as [|[k0 v0] d IH]; simpl; [reflexivity|].
  destruct (decide (k = k0)) as [->|Hne]; simpl; [reflexivity|].
  rewrite IH. destruct (Dict.get k d); reflexivity.
Qed.

Lemma dict_set_NoDup k v d :
  List.NoDup (Dict.keys d) -> List.NoDup (Dict.keys (Dict.set k v d)).
Proof.
  intros Hnd. rewrite dict_keys_set.
  destruct (Dict.get k d) eqn:Hg; [assumption|].
  apply dict_get_keys in Hg.
  apply List.NoDup_app; [assumption | |].
  - constructor; [intros [] | constructor].
  - intros x Hx [<-|[]]. contradiction.
Qed.

Lemma dict_NoDup_get k v d :
  List.NoDup (Dict.keys d) -> In (k, v) d -> Dict.get k d = Some v.
Proof.
  induction d as [|[k0 v0] d IH]; simpl; intros Hnd Hin; [destruct Hin|].
  inversion Hnd as [|? ? Hk0 Hnd']; subst.
  destruct Hin as [[= -> ->]|Hin].
  - destruct (decide (k = k)); congruence.
  - destruct (decide (k = k0)) as [->|Hne]; [|auto].
    exfalso. apply Hk0. change k0 with (fst (k0, v)).
    apply in_map. exact Hin.
Qed.

Lemma dict_get_map {W} (f : K -> V -> W) k d :
  Dict.get k (map (fun e : K * V => (fst e, f (fst e) (snd e))) d)
  = option_map (f k) (Dict.get k d).
Proof.
  induction d as [|[k0 v0] d IH]; simpl; [reflexivity|].
  destruct (decide (k = k0)) as [->|Hne]; [reflexivity | exact IH].
Qed.

Lemma dict_keys_map {W} (f : K -> V -> W) d :
  Dict.keys (map (fun e : K * V => (fst e, f (fst e) (snd e))) d)
  = Dict.keys d.
Proof.
  unfold Dict.keys. rewrite map_map. reflexivity.
Qed.

End DictSetFacts.

Section SubjectFacts.
Import ProgressTracker.

Lemma dict_keys_set_In {V} (k k' : string) (v : V) (d : Dict.t string V) :
  In k (Dict.keys (Dict.set k' v d)) <-> In k (Dict.keys d) \/ k = k'.
Proof.
  rewrite dict_keys_set. destruct (Dict.get k' d) as [v'|] eqn:Hg.
  - split; [tauto|]. intros [Hin| ->]; [assumption|].
    apply dict_get_In in Hg. change k' with (fst (k', v')).
    apply in_map. exact Hg.
  - rewrite in_app_iff. simpl. split; [intros [?|[?|[]]]; auto | ].
    intros [?| ->]; auto.
Qed.

Lemma subjectStep_keys acc p k :
  In k (Dict.keys (fst (subjectStep acc p)))
  <-> In k (Dict.keys (fst acc))
      \/ (k = StudentProgress.subject p /\ k <> "__proto__").
Proof.
  unfold subjectStep. destruct acc as [scores counts]. cbn [fst snd].
  destruct (String.eqb_spec (StudentProgress.subject p) "__proto__")
    as [Hp|Hp].
  - cbn [fst]. split; [tauto|]. intros [H|[-> H]]; [exact H | contradiction].
  - destruct (unset (StudentProgress.subject p) scores); cbn [fst].
    + rewrite !dict_keys_set_In. split; [|tauto].
      intros [[H|H]|H]; [tauto | subst k; tauto | subst k; tauto].
    + rewrite dict_keys_set_In. split; [|tauto].
      intros [H|H]; [tauto | subst k; tauto].
Qed.

Lemma subjectStep_NoDup acc p :
  List.NoDup (Dict.keys (fst acc)) ->
  List.NoDup (Dict.keys (fst (subjectStep acc p))).
Proof.
  unfold subjectStep. destruct acc as [scores counts]. cbn [fst snd].
  intros Hnd.
  destruct (String.eqb (StudentProgress.subject p) "__proto__");
    [exact Hnd|].
  destruct (unset (StudentProgress.subject p) scores); cbn [fst];
    repeat apply dict_set_NoDup; assumption.
Qed.

Lemma subject_fold_keys l : forall acc k,
  In k (Dict.keys (fst (fold_left subjectStep l acc)))
  <-> In k (Dict.keys (fst acc))
      \/ (k <> "__proto__"
          /\ exists e, In e l /\ StudentProgress.subject e = k).
Proof.
  induction l as [|p l IH]; intros acc k; simpl.
  - split; [tauto | intros [?|(_ & e & [] & _)]; assumption].
  - rewrite IH, subjectStep_keys. split.
    + intros [[?|[-> Hk]]|(Hk & e & He & Hs)]; eauto 6.
    + intros [?|(Hk & e & [<-|He] & Hs)]; eauto 6.
Qed.

Lemma subject_fold_NoDup l : forall acc,
  List.NoDup (Dict.keys (fst acc)) ->
  List.NoDup (Dict.keys (fst (fold_left subjectStep l acc))).
Proof.
  induction l as [|p l IH]; intros acc Hnd; simpl; [assumption|].
  apply IH, subjectStep_NoDup, Hnd.
Qed.

Lemma averageSubjects_keys acc :
  Dict.keys (averageSubjects acc) = Dict.keys (fst acc).
Proof.
  unfold averageSubjects.
  apply (dict_keys_map (fun k v => v / Dict.get_or 0 k (snd acc))).
Qed.

Lemma subjectScores_NoDup studentId now l :
  List.NoDup
    (Dict.keys (PerformanceMetrics.subjectScores (computeMetrics studentId now l))).
Proof.
  cbn [computeMetrics PerformanceMetrics.subjectScores].
  rewrite averageSubjects_keys. apply subject_fold_NoDup. constructor.
Qed.

Lemma filtered_keys (P : string * Q -> bool) (d : Dict.t string Q) k :
  List.NoDup (Dict.keys d) ->
  In k (map fst (List.filter P d))
  <-> exists v, Dict.get k d = Some v /\ P (k, v) = true.
Proof.
  intros Hnd. rewrite in_map_iff. split.
  - intros ([k' v] & <- & Hin). apply filter_In in Hin.
    destruct Hin as [Hin HP]. exists v. split; [|exact HP].
    apply dict_NoDup_get; assumption.
  - intros (v & Hg & HP). exists (k, v). split; [reflexivity|].
    apply filter_In. split; [apply dict_get_In; exact Hg | exact HP].
Qed.

End SubjectFacts.

(** X4. The snapshot holds exactly one subject score for every subject
    other than [__proto__] that occurs in the history, and none for any
    other subject; events of subject [__proto__] leave no subject score. *)
Theorem subjectScores_cover_history (studentId : string) (now : Date)
    (progress : list StudentProgress.t) :
  let subjectScores :=
    PerformanceMetrics.subjectScores
      (ProgressTracker.computeMetrics studentId now progress) in
  List.NoDup (Dict.keys subjectScores)
  /\ forall subject,
       In subject (Dict.keys subjectScores)
       <-> subject <> "__proto__"
           /\ exists e, In e progress /\ StudentProgress.subject e = subject.
Proof.
  intros subjectScores. split; [apply subjectScores_NoDup|].
  intros subject. unfold subjectScores.
  cbn [ProgressTracker.computeMetrics PerformanceMetrics.subjectScores].
  rewrite averageSubjects_keys, subject_fold_keys. simpl. tauto.
Qed.

(** An event of subject [__proto__] counts towards the overall score and
    leaves no subject score. *)
Example subjectScores_skip_proto :
  let metrics :=
    ProgressTracker.computeMetrics "ann" 5000
      [ Sample.event "ann" "__proto__" "Objects" 2000 40 1;
        Sample.event "ann" "Math" "Geometry" 1000 100 1 ] in
  PerformanceMetrics.overallScore metrics == 70
  /\ PerformanceMetrics.subjectScores metrics = [("Math", 100)].
Proof. split; reflexivity. Qed.

(** X5. In a snapshot the strengths are the subjects whose score is at least
    75 and the weaknesses those whose score is below 60, so no subject is
    both. *)
Theorem strengths_and_weaknesses (studentId : string) (now : Date)
    (progress : list StudentProgress.t) (subject : string) :
  let m := ProgressTracker.computeMetrics studentId now progress in
  (In subject (PerformanceMetrics.strengths m)
   <-> exists v, Dict.get subject (PerformanceMetrics.subjectScores m) = Some v
                 /\ 75 <= v)
  /\ (In subject (PerformanceMetrics.weaknesses m)
      <-> exists v, Dict.get subject (PerformanceMetrics.subjectScores m) = Some v
                    /\ v < 60)
  /\ ~ (In subject (PerformanceMetrics.strengths m)
        /\ In subject (PerformanceMetrics.weaknesses m)).
Proof.
  intros m.
  pose proof (subjectScores_NoDup studentId now progress) as Hnd. fold m in Hnd.
  assert (Hs : In subject (PerformanceMetrics.strengths m)
               <-> exists v, Dict.get subject (PerformanceMetrics.subjectScores m)
                             = Some v /\ 75 <= v).
  { unfold m at 1. cbn [ProgressTracker.computeMetrics PerformanceMetrics.strengths].
    rewrite filtered_keys by exact Hnd.
    split; intros (v & Hg & Hv); exists v; (split; [exact Hg|]).
    - apply Qle_bool_iff. exact Hv.
    - apply Qle_bool_iff. exact Hv. }
  assert (Hw : In subject (PerformanceMetrics.weaknesses m)
               <-> exists v, Dict.get subject (PerformanceMetrics.subjectScores m)
                             = Some v /\ v < 60).
  { unfold m at 1. cbn [ProgressTracker.computeMetrics PerformanceMetrics.weaknesses].
    rewrite filtered_keys by exact Hnd.
    split; intros (v & Hg & Hv); exists v; (split; [exact Hg|]).
    - apply geb_false. unfold JS.ltb in Hv. apply negb_true_iff in Hv. exact Hv.
    - unfold JS.ltb. apply negb_true_iff. cbn [snd].
      destruct (Qle_bool 60 v) eqn:Hb; [|reflexivity].
      apply Qle_bool_iff in Hb. exfalso. apply (Qlt_not_le _ _ Hv Hb). }
  split; [exact Hs|]. split; [exact Hw|].
  intros [H1 H2]. apply Hs in H1. apply Hw in H2.
  destruct H1 as (v & Hg & Hv). destruct H2 as (v' & Hg' & Hv').
  rewrite Hg in Hg'. injection Hg' as <-. lra.
Qed.

Section TotalFacts.
Import ProgressTracker.

Lemma total_app (xs ys : list Q) :
  Spec.total (xs ++ ys) == Spec.total xs + Spec.total ys.
Proof.
  induction xs as [|x xs IH]; simpl; [ring|]. rewrite IH. ring.
Qed.


End TotalFacts.

(** A score of zero makes the running sum falsy: the next event of the
    subject restarts sum and count, and the earlier event is forgotten. *)
Example subjectScore_restarts_after_zero :
  PerformanceMetrics.subjectScores
    (ProgressTracker.computeMetrics "ann" 5000
       [ Sample.event "ann" "Math" "Algebra" 2000 0 1;
         Sample.event "ann" "Math" "Geometry" 1000 100 1 ])
  = [("Math", 100)].
Proof. reflexivity. Qed.

Section RangeFacts.
Import ProgressTracker.


Lemma of_nat_pos (n : nat) : (0 < n)%nat -> 0 < JS.of_nat n.
Proof.
  intros Hn. unfold JS.of_nat. change 0 with (inject_Z 0).
  rewrite <- Zlt_Qlt. lia.
Qed.

Lemma of_nat_nonneg (n : nat) : 0 <= JS.of_nat n.
Proof.
  unfold JS.of_nat. change 0 with (inject_Z 0). rewrite <- Zle_Qle. lia.
Qed.

Lemma of_nat_le (n m : nat) : (n <= m)%nat -> JS.of_nat n <= JS.of_nat m.
Proof. intros H. unfold JS.of_nat. rewrite <- Zle_Qle. lia. Qed.

Lemma Math_round_range (x : Q) :
  0 <= x -> x <= 100 ->
  0 <= JS.Math_round x /\ JS.Math_round x <= 100.
Proof.
  intros H0 H100. unfold JS.Math_round. split.
  - change 0 with (inject_Z (Qfloor (0 + (1 # 2)))). rewrite <- Zle_Qle.
    apply Qfloor_resp_le. lra.
  - change 100 with (inject_Z (Qfloor (100 + (1 # 2)))). rewrite <- Zle_Qle.
    apply Qfloor_resp_le. lra.
Qed.

End RangeFacts.

(** ** Rounding to the nearest double *)

Section DoubleFacts.
Import Double.

Lemma pow2_pos (e : Z) : 0 < pow2 e.
Proof. unfold pow2. apply Qpower_0_lt. reflexivity. Qed.

Lemma pow2_le (e e' : Z) : (e <= e')%Z -> pow2 e <= pow2 e'.
Proof. intros H. unfold pow2. apply Qpower_le_compat_l; [exact H | discriminate]. Qed.

Lemma pow2_lt_inv (e e' : Z) : pow2 e < pow2 e' -> (e < e')%Z.
Proof. intros H. apply (Qpower_lt_compat_l_inv 2); [exact H | reflexivity]. Qed.

Lemma pow2_plus (a b : Z) : pow2 (a + b) == pow2 a * pow2 b.
Proof. unfold pow2. apply Qpower_plus. discriminate. Qed.

Lemma pow2_Z (a : Z) : (0 <= a)%Z -> pow2 a == inject_Z (2 ^ a).
Proof. intros H. unfold pow2. rewrite Zpower_Qpower by exact H. reflexivity. Qed.


(** [ilog2 x] is not above the binary logarithm of [x]. *)
Lemma ilog2_lower (x : Q) : 0 < x -> pow2 (ilog2 x) <= x.
Proof.
  intros Hx. unfold ilog2. cbv zeta.
  destruct (Qle_bool (pow2 _) x) eqn:Hb; [apply Qle_bool_iff; exact Hb|].
  destruct x as [n d]. cbn [Qnum Qden].
  assert (Hn : (0 < n)%Z).
  { unfold Qlt in Hx. simpl in Hx. lia. }
  destruct (Z.log2_spec n Hn) as [Hn1 _].
  destruct (Z.log2_spec (Z.pos d) (Pos2Z.is_pos d)) as [_ Hd2].
  pose proof (Z.log2_nonneg n) as Ha.
  pose proof (Z.log2_nonneg (Z.pos d)) as Hb'.
  set (a := Z.log2 n) in *. set (b := Z.log2 (Z.pos d)) in *.
  replace (a - b - 1)%Z with (a + - (b + 1))%Z by lia.
  rewrite pow2_plus. unfold pow2 at 2. rewrite Qpower_opp.
  fold (pow2 (b + 1)). rewrite !pow2_Z by lia.
  assert (Hp : (0 < 2 ^ (b + 1))%Z) by (apply Z.pow_pos_nonneg; lia).
  apply Qle_shift_div_r.
  - change 0 with (inject_Z 0). rewrite <- Zlt_Qlt. exact Hp.
  - unfold Qle, Qmult, inject_Z. simpl.
    rewrite Z.mul_1_r.
    assert (H1 : (2 ^ a * Z.pos d <= n * Z.pos d)%Z) by nia.
    assert (H2 : (n * Z.pos d <= n * 2 ^ (b + 1))%Z) by nia.
    lia.
Qed.

Lemma ilog2_bound (x : Q) (k : Z) : 0 < x -> x < pow2 (k + 1) -> (ilog2 x <= k)%Z.
Proof.
  intros Hx Hk. pose proof (ilog2_lower x Hx) as Hl.
  assert (H : pow2 (ilog2 x) < pow2 (k + 1)) by (eapply Qle_lt_trans; eassumption).
  apply pow2_lt_inv in H. lia.
Qed.

Lemma rne_floor (y : Q) : (Qfloor y <= rne y <= Qfloor y + 1)%Z.
Proof.
  unfold rne. cbv zeta.
  destruct (Qcompare _ _); [destruct (Z.even _)| |]; lia.
Qed.


Lemma rne_le (y : Q) (M : Z) : y <= inject_Z M -> (rne y <= M)%Z.
Proof.
  intros Hy. pose proof (Qfloor_le y) as Hl.
  assert (Hf : (Qfloor y <= M)%Z).
  { rewrite <- (Qfloor_Z M). apply Qfloor_resp_le. exact Hy. }
  unfold rne. cbv zeta.
  assert (Hstep : 0 < y - inject_Z (Qfloor y) -> (Qfloor y + 1 <= M)%Z).
  { intros Hpos.
    assert (Hlt : inject_Z (Qfloor y) < inject_Z M).
    { apply Qlt_le_trans with y; [|exact Hy].
      apply (Qplus_lt_l _ _ (- inject_Z (Qfloor y))).
      setoid_replace (inject_Z (Qfloor y) + - inject_Z (Qfloor y)) with 0
        using relation Qeq by ring.
      exact Hpos. }
    rewrite <- Zlt_Qlt in Hlt. lia. }
  destruct (Qcompare (y - inject_Z (Qfloor y)) (1 # 2)) eqn:Hc.
  - apply Qeq_alt in Hc. destruct (Z.even _); [exact Hf|]. apply Hstep. lra.
  - exact Hf.
  - apply Qgt_alt in Hc. apply Hstep. lra.
Qed.

Lemma rne_ge (y : Q) (M : Z) : inject_Z M <= y -> (M <= rne y)%Z.
Proof.
  intros Hy.
  assert (Hf : (M <= Qfloor y)%Z).
  { rewrite <- (Qfloor_Z M). apply Qfloor_resp_le. exact Hy. }
  pose proof (rne_floor y). lia.
Qed.


Lemma quantum_bound (y : Q) (k : Z) :
  ~ y == 0 -> (emin + 52 <= k)%Z -> Qabs y <= pow2 k ->
  (quantum y <= k - 52)%Z.
Proof.
  intros Hy Hk Hb. unfold quantum.
  assert (Hpos : 0 < Qabs y).
  { destruct (Qlt_le_dec 0 (Qabs y)) as [H|H]; [exact H|].
    exfalso. apply Hy. apply Qabs_Qle_condition in H. lra. }
  assert (Hlt : Qabs y < pow2 (k + 1)).
  { apply Qle_lt_trans with (pow2 k); [exact Hb|].
    unfold pow2. apply Qpower_lt_compat_l; [lia | reflexivity]. }
  pose proof (ilog2_bound _ k Hpos Hlt). lia.
Qed.

Lemma scaled_back (y : Q) (q : Z) : y / pow2 q * pow2 q == y.
Proof.
  pose proof (pow2_pos q). field. intros H0. rewrite H0 in H. discriminate H.
Qed.



(** A number between two whole numbers below [2^53] is rounded to a number
    between them. *)
Lemma round_between_integers (y : Q) (L M : Z) :
  (0 <= L)%Z -> (M < 2 ^ 53)%Z ->
  inject_Z L <= y -> y <= inject_Z M ->
  exists v, round y = Finite v /\ inject_Z L <= v /\ v <= inject_Z M.
Proof.
  intros HL HM Hly Hym.
  assert (HL0 : 0 <= inject_Z L) by (change 0 with (inject_Z 0); rewrite <- Zle_Qle; lia).
  assert (HLM : (L <= M)%Z) by (rewrite Zle_Qle; lra).
  unfold round.
  destruct (Qeq_bool y 0) eqn:Hz.
  - apply Qeq_bool_eq in Hz. exists 0. split; [reflexivity|]. lra.
  - apply Qeq_bool_neq in Hz. cbv zeta.
    assert (Hy53 : Qabs y <= pow2 52 + pow2 52).
    { rewrite Qabs_pos by lra.
      apply Qle_trans with (inject_Z M); [exact Hym|].
      assert (E : pow2 52 + pow2 52 == inject_Z (2 ^ 53)) by reflexivity.
      rewrite E, <- Zle_Qle. lia. }
    assert (Hq : (quantum y <= 0)%Z).
    { assert (H := quantum_bound y 53 Hz ltac:(unfold emin; lia)).
      unfold quantum in *.
      assert (Hpos : 0 < Qabs y).
      { rewrite Qabs_pos by lra.
        destruct (Qlt_le_dec 0 y) as [Hp|Hp]; [exact Hp|].
        exfalso. apply Hz. lra. }
      assert (Hlt : Qabs y < pow2 53).
      { rewrite Qabs_pos by lra.
        apply Qle_lt_trans with (inject_Z M); [exact Hym|].
        assert (E : pow2 53 == inject_Z (2 ^ 53)) by reflexivity.
        rewrite E, <- Zlt_Qlt. exact HM. }
      pose proof (ilog2_bound _ 52 Hpos Hlt). unfold emin. lia. }
    set (q := quantum y) in *.
    set (m := rne (y / pow2 q)).
    assert (Hscale : forall z : Z,
               inject_Z z / pow2 q == inject_Z (z * 2 ^ (- q))).
    { intros z. rewrite inject_Z_mult, <- pow2_Z by lia.
      unfold Qdiv. apply Qmult_comp; [reflexivity|].
      unfold pow2. rewrite Qpower_opp. reflexivity. }
    assert (Hm1 : (L * 2 ^ (- q) <= m)%Z).
    { apply rne_ge. rewrite <- Hscale.
      apply Qmult_le_compat_r; [exact Hly|].
      apply Qinv_le_0_compat, Qlt_le_weak, pow2_pos. }
    assert (Hm2 : (m <= M * 2 ^ (- q))%Z).
    { apply rne_le. rewrite <- Hscale.
      apply Qmult_le_compat_r; [exact Hym|].
      apply Qinv_le_0_compat, Qlt_le_weak, pow2_pos. }
    assert (Hv1 : inject_Z L <= inject_Z m * pow2 q).
    { rewrite <- (scaled_back (inject_Z L) q), Hscale.
      apply Qmult_le_compat_r; [|apply Qlt_le_weak, pow2_pos].
      rewrite <- Zle_Qle. exact Hm1. }
    assert (Hv2 : inject_Z m * pow2 q <= inject_Z M).
    { rewrite <- (scaled_back (inject_Z M) q), Hscale.
      apply Qmult_le_compat_r; [|apply Qlt_le_weak, pow2_pos].
      rewrite <- Zle_Qle. exact Hm2. }
    assert (Hfin : Qle_bool (pow2 emax)
                     (Qabs (Qred (inject_Z m * pow2 q))) = false).
    { rewrite Qred_correct, Qabs_pos by lra.
      destruct (Qle_bool _ _) eqn:Hle; [|reflexivity].
      apply Qle_bool_iff in Hle. exfalso.
      assert (H53 : inject_Z M < pow2 53).
      { assert (E : pow2 53 == inject_Z (2 ^ 53)) by reflexivity.
        rewrite E, <- Zlt_Qlt. exact HM. }
      assert (Hmax : pow2 53 <= pow2 emax) by (apply pow2_le; unfold emax; lia).
      lra. }
    rewrite Hfin. eexists. split; [reflexivity|]. rewrite Qred_correct.
    split; assumption.
Qed.

End DoubleFacts.

(** ** The overall score in double arithmetic *)

Section OverallScoreFacts.
Import Double ProgressTracker.






End OverallScoreFacts.



Example overallScore_fractional :
  ProgressTracker.overallScoreIEEE Sample.fractionalScores
  = Double.Finite (5277655813324799 # 70368744177664).
Proof. vm_compute. reflexivity. Qed.

(** The same computations in the Standard Library's binary64 *)
Example double_agrees_large :
  Double.ofSpec
    (SFdiv 53 1024
       (SFadd 53 1024
          (SFadd 53 1024 (Double.specOfZ 0)
             (Double.specOfZ 100000000000000000))
          (Double.specOfZ 50))
       (Double.specOfZ 2))
  = ProgressTracker.overallScoreIEEE Sample.largeScores.
Proof. vm_compute. reflexivity. Qed.

Example double_agrees_fractional :
  let tenth n := SFdiv 53 1024 (Double.specOfZ n) (Double.specOfZ 10) in
  Double.ofSpec
    (SFdiv 53 1024
       (SFadd 53 1024
          (SFadd 53 1024
             (SFadd 53 1024 (Double.specOfZ 0) (tenth 748%Z))
             (tenth 751%Z))
          (tenth 751%Z))
       (Double.specOfZ 3))
  = ProgressTracker.overallScoreIEEE Sample.fractionalScores.
Proof. vm_compute. reflexivity. Qed.

Example double_agrees_tenths :
  let tenth := SFdiv 53 1024 (Double.specOfZ 1) (Double.specOfZ 10) in
  Double.ofSpec
    (SFdiv 53 1024
       (SFadd 53 1024 (SFadd 53 1024 tenth tenth) tenth)
       (Double.specOfZ 3))
  = Double.div
      (Double.add (Double.add (Double.round (1 # 10)) (Double.round (1 # 10)))
                  (Double.round (1 # 10)))
      (Double.Finite 3).
Proof. vm_compute. reflexivity. Qed.

Section OverallScoreRange.
Import Double ProgressTracker.

Lemma sum_between (lo hi : Z) (l : list StudentProgress.t) :
  forall (v : Q) (j : nat),
    (0 <= lo)%Z -> (hi < 2 ^ 21)%Z ->
    inject_Z (lo * Z.of_nat j) <= v -> v <= inject_Z (hi * Z.of_nat j) ->
    (Z.of_nat (j + length l) < 2 ^ 32)%Z ->
    (forall e, In e l ->
       inject_Z lo <= StudentProgress.score e
       /\ StudentProgress.score e <= inject_Z hi) ->
    exists v',
      fold_left
        (fun sum p => add sum (Finite (StudentProgress.score p))) l (Finite v)
      = Finite v'
      /\ inject_Z (lo * Z.of_nat (j + length l)) <= v'
      /\ v' <= inject_Z (hi * Z.of_nat (j + length l)).
Proof.
  induction l as [|e l IH]; intros v j Hlo Hhi Hv1 Hv2 Hlen Hrange.
  - exists v. rewrite Nat.add_0_r. auto.
  - destruct (Hrange e (or_introl eq_refl)) as [Hx1 Hx2].
    cbn [length] in Hlen.
    destruct (round_between_integers (v + StudentProgress.score e)
                (lo * Z.of_nat (S j)) (hi * Z.of_nat (S j)))
      as (v1 & Hr & Hv11 & Hv12).
    + nia.
    + nia.
    + replace (lo * Z.of_nat (S j))%Z with (lo * Z.of_nat j + lo)%Z by lia.
      rewrite inject_Z_plus. lra.
    + replace (hi * Z.of_nat (S j))%Z with (hi * Z.of_nat j + hi)%Z by lia.
      rewrite inject_Z_plus. lra.
    + destruct (IH v1 (S j) Hlo Hhi Hv11 Hv12) as (v' & Hf & Hv'1 & Hv'2).
      * lia.
      * intros e' He'. apply Hrange. right. exact He'.
      * exists v'. cbn [fold_left add length]. rewrite Hr.
        replace (j + S (length l))%nat with (S j + length l)%nat by lia.
        auto.
Qed.

End OverallScoreRange.

(** X7. For a non-empty history whose scores all lie between two whole
    numbers [lo] and [hi], with [0 <= lo] and [hi < 2^21], the overall score
    computed in double arithmetic is a finite number between [lo] and [hi];
    scores within [0, 100] give an overall score within [0, 100]. *)
Theorem overallScore_between_bounds (progress : list StudentProgress.t)
    (lo hi : Z) :
  progress <> [] ->
  (Z.of_nat (length progress) < 2 ^ 32)%Z ->
  (0 <= lo)%Z -> (hi < 2 ^ 21)%Z ->
  (forall e, In e progress ->
     inject_Z lo <= StudentProgress.score e
     /\ StudentProgress.score e <= inject_Z hi) ->
  exists v,
    ProgressTracker.overallScoreIEEE progress = Double.Finite v
    /\ inject_Z lo <= v /\ v <= inject_Z hi.
Proof.
  intros Hne Hlen Hlo Hhi Hrange.
  destruct (sum_between lo hi progress 0 0 Hlo Hhi) as (sv & Hsum & Hs1 & Hs2);
    try assumption.
  { rewrite Z.mul_0_r. apply Qle_refl. }
  { rewrite Z.mul_0_r. apply Qle_refl. }
  cbn [Nat.add] in Hs1, Hs2.
  set (n := Z.of_nat (length progress)) in *.
  assert (Hn : (1 <= n)%Z).
  { unfold n. destruct progress; [congruence | cbn [length]; lia]. }
  assert (Hnq : 0 < inject_Z n).
  { change 0 with (inject_Z 0). rewrite <- Zlt_Qlt. lia. }
  rewrite inject_Z_mult in Hs1, Hs2.
  destruct (round_between_integers (sv / inject_Z n) lo hi)
    as (v & Hr & Hv1 & Hv2).
  - exact Hlo.
  - lia.
  - apply Qle_shift_div_l; [exact Hnq | exact Hs1].
  - apply Qle_shift_div_r; [exact Hnq | exact Hs2].
  - exists v. split; [|split; assumption].
    unfold ProgressTracker.overallScoreIEEE, ProgressTracker.sumScoresIEEE.
    rewrite Hsum. unfold JS.of_nat. fold n. unfold Double.div.
    destruct (Qeq_bool (inject_Z n) 0) eqn:Hz; [|exact Hr].
    apply Qeq_bool_eq in Hz. rewrite Hz in Hnq. discriminate Hnq.
Qed.

Lemma overallScore_between_bounds_witness :
  exists v,
    ProgressTracker.overallScoreIEEE Sample.fractionalScores = Double.Finite v
    /\ inject_Z 0 <= v /\ v <= inject_Z 100.
Proof.
  apply (overallScore_between_bounds Sample.fractionalScores 0 100).
  - discriminate.
  - vm_compute. reflexivity.
  - lia.
  - vm_compute. reflexivity.
  - intros e [<-|[<-|[<-|[]]]]; split; vm_compute; discriminate.
Defined.

(** X8. For every history and instant, the consistency that
    [calculateConsistency] returns is a whole number between 0 and 100, and
    the learning velocity of the snapshot is between 0 and the number of
    events. *)
Theorem consistency_and_velocity_ranges (studentId : string) (now : Date)
    (progress : list StudentProgress.t) :
  let m := ProgressTracker.computeMetrics studentId now progress in
  PerformanceMetrics.consistency m
  = ProgressTracker.calculateConsistency now progress
  /\ 0 <= PerformanceMetrics.consistency m
  /\ PerformanceMetrics.consistency m <= 100
  /\ (exists z : Z, PerformanceMetrics.consistency m = inject_Z z)
  /\ 0 <= PerformanceMetrics.learningVelocity m
  /\ PerformanceMetrics.learningVelocity m <= JS.of_nat (length progress).
Proof.
  intros m. unfold m.
  cbn [ProgressTracker.computeMetrics PerformanceMetrics.consistency
       PerformanceMetrics.learningVelocity].
  split; [reflexivity|].
  assert (Hc : 0 <= ProgressTracker.calculateConsistency now progress
               /\ ProgressTracker.calculateConsistency now progress <= 100
               /\ exists z : Z,
                    ProgressTracker.calculateConsistency now progress
                    = inject_Z z).
  { unfold ProgressTracker.calculateConsistency.
    destruct (length progress <? 7)%nat.
    { repeat split; try discriminate. exists 50%Z. reflexivity. }
    destruct (length (List.filter _ progress) =? 0)%nat.
    { repeat split; try discriminate. exists 0%Z. reflexivity. }
    match goal with
    | |- context [JS.Math_round ?x] =>
        destruct (Math_round_range x) as [H0 H100]
    end.
    - unfold JS.Math_min. apply Q.min_glb; [discriminate|].
      match goal with
      | |- context [JS.of_nat ?n] => pose proof (of_nat_nonneg n) as Hn
      end.
      apply Qmult_le_0_compat; [|discriminate].
      apply Qle_shift_div_l; [reflexivity|]. lra.
    - unfold JS.Math_min. apply Q.le_min_l.
    - repeat split; try assumption. eexists. reflexivity. }
  destruct Hc as (H0 & H100 & Hz).
  repeat split; try assumption.
  - apply of_nat_nonneg.
  - apply of_nat_le, filter_length_le.
Qed.

(** ** Learning gaps: what is returned and what is persisted *)

Lemma collectGaps_collision_free_witness :
  ((exists g,
      In g (ProgressTracker.collectGaps "ann" 5000
              (ProgressTracker.studentHistory "ann" Sample.annStore))
      /\ LearningGap.subject g = "Physics"
      /\ LearningGap.topic g = "Optics")
   <-> (exists e,
          In e (ProgressTracker.studentHistory "ann" Sample.annStore)
          /\ Spec.evidenceOf "Physics" "Optics" e = true))
  /\ (forall g,
        In g (ProgressTracker.collectGaps "ann" 5000
                (ProgressTracker.studentHistory "ann" Sample.annStore)) ->
        LearningGap.subject g = "Physics" ->
        LearningGap.topic g = "Optics" ->
        exists e,
          List.find (Spec.evidenceOf "Physics" "Optics")
            (ProgressTracker.studentHistory "ann" Sample.annStore) = Some e
          /\ Spec.priorityScale (StudentProgress.score e)
               (LearningGap.priority g)).
Proof.
  apply (collectGaps_collision_free "ann" 5000
           (ProgressTracker.studentHistory "ann" Sample.annStore)).
  intros e e' He He' Hk. vm_compute in He, He'.
  destruct He as [<-|[<-|[<-|[]]]]; destruct He' as [<-|[<-|[<-|[]]]];
    try (split; reflexivity); vm_compute in Hk; discriminate Hk.
Defined.

Section GapStoreFacts.
Import Firestore Async ProgressTracker.

Lemma for_each_write_fold {A} (f : A -> Store -> Store) l s :
  for_each l (fun x => write (f x)) s
  = Returned tt (fold_left (fun s x => f x s) l s).
Proof.
  revert s. induction l as [|x l IH]; intros s; simpl; [reflexivity|].
  unfold bind, write. apply IH.
Qed.

Lemma merge_gaps_store (l : list LearningGap.t) : forall s,
  fold_left (fun s g => merge_learningGap (gapDocId g) g s) l s
  = mkStore (progress s) (performanceMetrics s)
      (fold_left (fun m g => <[gapDocId g := g]> m) l (learningGaps s))
      (reports s) (studyMatches s) (users s).
Proof.
  induction l as [|g l IH]; intros s; simpl.
  - destruct s. reflexivity.
  - rewrite IH. reflexivity.
Qed.

Lemma for_each_saveGap (l : list LearningGap.t) : forall s,
  (forall g, In g l -> validDocId (gapDocId g) = true) ->
  for_each l saveGap s
  = Returned tt (fold_left (fun s g => merge_learningGap (gapDocId g) g s) l s).
Proof.
  induction l as [|g l IH]; intros s Hv; simpl; [reflexivity|].
  unfold bind, saveGap at 1. rewrite (Hv g) by (left; reflexivity).
  unfold write. apply IH. intros g' Hg'. apply Hv. right. exact Hg'.
Qed.

Lemma identifyLearningGaps_returned studentId now s gaps s' :
  identifyLearningGaps studentId now s = Returned gaps s' ->
  gaps = collectGaps studentId now (studentHistory studentId s).
Proof.
  unfold identifyLearningGaps, bind, getStudentProgress, read, ret.
  destruct (for_each _ saveGap s) as [u s1|msg s1]; [|discriminate].
  intros [= <- _]. reflexivity.
Qed.


Lemma inserts_lookup_other {V} (key : V -> string) (l : list V) :
  forall (m : gmap string V) id,
    ~ In id (map key l) ->
    fold_left (fun m x => <[key x := x]> m) l m !! id = m !! id.
Proof.
  induction l as [|x l IH]; intros m id Hn; simpl; [reflexivity|].
  rewrite IH by (intros H; apply Hn; right; exact H).
  apply lookup_insert_ne. intros Heq. apply Hn. left. exact Heq.
Qed.

Lemma inserts_lookup {V} (key : V -> string) (l : list V) :
  forall (m : gmap string V) x,
    List.NoDup (map key l) -> In x l ->
    fold_left (fun m x => <[key x := x]> m) l m !! key x = Some x.
Proof.
  induction l as [|y l IH]; intros m x Hnd Hin; simpl; [destruct Hin|].
  inversion Hnd as [|? ? Hy Hnd']; subst.
  destruct Hin as [->|Hin].
  - rewrite inserts_lookup_other by exact Hy. apply lookup_insert_eq.
  - apply IH; assumption.
Qed.

Lemma append_inj_r (p a b : string) : p +:+ a = p +:+ b -> a = b.
Proof.
  induction p as [|c p IH]; simpl; intros H; [exact H|].
  injection H as H. apply IH. exact H.
Qed.

Lemma gapMap_entries studentId now l : forall acc,
  Forall (fun kg => exists e, kg = (gapKey e, newGap studentId now e)) acc ->
  Forall (fun kg => exists e, kg = (gapKey e, newGap studentId now e))
    (fold_left (gapStep studentId now) l acc).
Proof.
  induction l as [|e l IH]; intros acc Hacc; simpl; [assumption|].
  apply IH. unfold gapStep.
  destruct (qualifies e); [|assumption].
  destruct (Dict.get (gapKey e) acc) eqn:Hg; [assumption|].
  rewrite dict_set_absent by assumption.
  apply Forall_app. split; [assumption|].
  constructor; [eauto | constructor].
Qed.

Lemma gapMap_NoDup studentId now l : forall acc,
  List.NoDup (Dict.keys acc) ->
  List.NoDup (Dict.keys (fold_left (gapStep studentId now) l acc)).
Proof.
  induction l as [|e l IH]; intros acc Hnd; simpl; [assumption|].
  apply IH. unfold gapStep.
  destruct (qualifies e); [|assumption].
  destruct (Dict.get (gapKey e) acc); [assumption|].
  apply dict_set_NoDup. assumption.
Qed.

Lemma gap_docIds studentId now (d : Dict.t string LearningGap.t) :
  Forall (fun kg => exists e, kg = (gapKey e, newGap studentId now e)) d ->
  map gapDocId (Dict.values d)
  = map (fun k => studentId +:+ "-" +:+ k) (Dict.keys d).
Proof.
  unfold Dict.values, Dict.keys.
  induction 1 as [|kg d (e & ->) Hd IH]; [reflexivity|].
  cbn [map fst snd]. rewrite IH. reflexivity.
Qed.

Lemma collectGaps_docIds_NoDup studentId now l :
  List.NoDup (map gapDocId (collectGaps studentId now l)).
Proof.
  unfold collectGaps.
  rewrite (gap_docIds studentId now)
    by (apply gapMap_entries; constructor).
  apply NoDup_map_NoDup_ForallPairs.
  - intros k k' _ _ Heq. apply append_inj_r in Heq.
    apply append_inj_r in Heq. exact Heq.
  - apply gapMap_NoDup. constructor.
Qed.

Lemma collectGaps_shape studentId now l g :
  In g (collectGaps studentId now l) ->
  exists e, In e l /\ qualifies e = true /\ g = newGap studentId now e.
Proof.
  intros Hin. apply collectGaps_by_key in Hin. destruct Hin as (e & Hf & ->).
  destruct (find_some _ _ Hf) as [He Hev].
  apply evidenceFor_true in Hev. destruct Hev as [Hq _]. eauto.
Qed.

Lemma qualifies_true e :
  qualifies e = true
  <-> StudentProgress.score e < 60 \/ 2 < StudentProgress.attempts e.
Proof.
  unfold qualifies, JS.ltb, JS.gtb.
  rewrite orb_true_iff, !negb_true_iff. split.
  - intros [H|H]; [left|right]; apply Qnot_le_lt; intros Hle;
      apply Qle_bool_iff in Hle; congruence.
  - intros [H|H]; [left|right];
      match goal with
      | |- Qle_bool ?a ?b = false =>
          destruct (Qle_bool a b) eqn:Hb; [|reflexivity];
          apply Qle_bool_iff in Hb; exfalso; apply (Qlt_not_le _ _ H Hb)
      end.
Qed.

Lemma collectGaps_valid studentId now history :
  (forall e, In e history ->
     StudentProgress.score e < 60 \/ 2 < StudentProgress.attempts e ->
     validDocId
       (studentId +:+ "-" +:+ StudentProgress.subject e
          +:+ "-" +:+ StudentProgress.topic e) = true) ->
  forall g, In g (collectGaps studentId now history) ->
            validDocId (gapDocId g) = true.
Proof.
  intros Hv g Hg. apply collectGaps_shape in Hg.
  destruct Hg as (e & He & Hq & ->). apply qualifies_true in Hq.
  exact (Hv e He Hq).
Qed.

End GapStoreFacts.

(** X10. When the document id [studentId-subject-topic] of every event of
    the history with score < 60 or attempts > 2 is a valid document id,
    [identifyLearningGaps] returns.  No two returned gaps share a document
    id, every returned gap is afterwards stored under its id, belongs to
    the student, names four resources and has no weak points; documents
    under other ids and all other collections are left alone. *)
Theorem identifyLearningGaps_persists_gaps (studentId : string) (now : Date)
    (s : Firestore.Store) :
  (forall e, In e (ProgressTracker.studentHistory studentId s) ->
     StudentProgress.score e < 60 \/ 2 < StudentProgress.attempts e ->
     Firestore.validDocId
       (studentId +:+ "-" +:+ StudentProgress.subject e
          +:+ "-" +:+ StudentProgress.topic e) = true) ->
  exists gaps s',
    ProgressTracker.identifyLearningGaps studentId now s
    = Async.Returned gaps s'
    /\ List.NoDup (map ProgressTracker.gapDocId gaps)
    /\ (forall g, In g gaps ->
          Firestore.learningGaps s' !! ProgressTracker.gapDocId g = Some g
          /\ LearningGap.studentId g = studentId
          /\ length (LearningGap.suggestedResources g) = 4%nat
          /\ LearningGap.weakPoints g = [])
    /\ (forall id, ~ In id (map ProgressTracker.gapDocId gaps) ->
          Firestore.learningGaps s' !! id = Firestore.learningGaps s !! id)
    /\ Firestore.progress s' = Firestore.progress s
    /\ Firestore.performanceMetrics s' = Firestore.performanceMetrics s
    /\ Firestore.reports s' = Firestore.reports s
    /\ Firestore.studyMatches s' = Firestore.studyMatches s
    /\ Firestore.users s' = Firestore.users s.
Proof.
  intros Hvalid.
  unfold ProgressTracker.identifyLearningGaps, Async.bind,
    ProgressTracker.getStudentProgress, Async.read.
  rewrite for_each_saveGap by (apply collectGaps_valid; exact Hvalid).
  rewrite merge_gaps_store.
  do 2 eexists. split; [reflexivity|].
  cbn [Firestore.learningGaps Firestore.progress Firestore.performanceMetrics
       Firestore.reports Firestore.studyMatches Firestore.users].
  split; [apply collectGaps_docIds_NoDup|].
  split; [|split; [|repeat split]].
  - intros g Hg. split.
    + apply inserts_lookup; [apply collectGaps_docIds_NoDup | exact Hg].
    + apply collectGaps_shape in Hg. destruct Hg as (e & _ & _ & ->).
      repeat split.
  - intros id Hid. apply inserts_lookup_other. exact Hid.
Qed.

Lemma identifyLearningGaps_persists_gaps_witness :
  exists gaps s',
    ProgressTracker.identifyLearningGaps "ann" 5000 Sample.annStore
    = Async.Returned gaps s'
    /\ List.NoDup (map ProgressTracker.gapDocId gaps)
    /\ (forall g, In g gaps ->
          Firestore.learningGaps s' !! ProgressTracker.gapDocId g = Some g
          /\ LearningGap.studentId g = "ann"
          /\ length (LearningGap.suggestedResources g) = 4%nat
          /\ LearningGap.weakPoints g = [])
    /\ (forall id, ~ In id (map ProgressTracker.gapDocId gaps) ->
          Firestore.learningGaps s' !! id
          = Firestore.learningGaps Sample.annStore !! id)
    /\ Firestore.progress s' = Firestore.progress Sample.annStore
    /\ Firestore.performanceMetrics s'
       = Firestore.performanceMetrics Sample.annStore
    /\ Firestore.reports s' = Firestore.reports Sample.annStore
    /\ Firestore.studyMatches s' = Firestore.studyMatches Sample.annStore
    /\ Firestore.users s' = Firestore.users Sample.annStore.
Proof.
  apply (identifyLearningGaps_persists_gaps "ann" 5000 Sample.annStore).
  intros e He _. vm_compute in He.
  repeat (destruct He as [<- | He]; [reflexivity|]). destruct He.
Defined.

(** A topic with a slash: the gap found first is stored, the write of the
    second is rejected and the call does not return. *)
Example identifyLearningGaps_slash_topic :
  exists s',
    ProgressTracker.identifyLearningGaps "ann" 5000 Sample.slashStore
    = Async.Thrown "invalid-argument" s'
    /\ Firestore.learningGaps s' !! "ann-Math-Algebra"
       = Some (ProgressTracker.newGap "ann" 5000
                 (Sample.event "ann" "Math" "Algebra" 2000 30 1))
    /\ Firestore.learningGaps s' !! "ann-Networks-TCP/IP" = None.
Proof.
  eexists. split; [vm_compute; reflexivity|].
  split; vm_compute; reflexivity.
Qed.

(** X11. [identifyLearningGaps] returns the empty list exactly when no event
    of the history has score < 60 or attempts > 2, and whenever it returns
    the empty list it leaves the store as it was. *)
Theorem identifyLearningGaps_empty (studentId : string) (now : Date)
    (s : Firestore.Store) :
  ((exists s',
      ProgressTracker.identifyLearningGaps studentId now s
      = Async.Returned [] s')
   <-> forall e, In e (ProgressTracker.studentHistory studentId s) ->
         ~ (StudentProgress.score e < 60
            \/ 2 < StudentProgress.attempts e))
  /\ (forall s',
        ProgressTracker.identifyLearningGaps studentId now s
        = Async.Returned [] s' -> s' = s).
Proof.
  assert (Hrun : ProgressTracker.collectGaps studentId now
                   (ProgressTracker.studentHistory studentId s) = [] ->
                 ProgressTracker.identifyLearningGaps studentId now s
                 = Async.Returned [] s).
  { intros Hc.
    unfold ProgressTracker.identifyLearningGaps, Async.bind,
      ProgressTracker.getStudentProgress, Async.read.
    rewrite Hc. reflexivity. }
  split.
  - split.
    + intros [s' Hret] e He Hq.
      apply identifyLearningGaps_returned in Hret. symmetry in Hret.
      apply qualifies_true in Hq.
      destruct (find_finds
                  (Spec.evidenceFor (ProgressTracker.gapKey e))
                  (ProgressTracker.studentHistory studentId s) e He)
        as [e' Hf].
      { apply evidenceFor_true. auto. }
      assert (Hin : In (ProgressTracker.newGap studentId now e')
                      (ProgressTracker.collectGaps studentId now
                         (ProgressTracker.studentHistory studentId s))).
      { apply collectGaps_by_key. exists e'. split; [|reflexivity].
        destruct (find_some _ _ Hf) as [_ Hev].
        apply evidenceFor_true in Hev. destruct Hev as [_ Hk].
        rewrite Hk. exact Hf. }
      rewrite Hret in Hin. destruct Hin.
    + intros Hno. exists s. apply Hrun.
      destruct (ProgressTracker.collectGaps studentId now
                  (ProgressTracker.studentHistory studentId s))
        as [|g gaps] eqn:Hc; [reflexivity|].
      assert (Hg : In g (ProgressTracker.collectGaps studentId now
                           (ProgressTracker.studentHistory studentId s)))
        by (rewrite Hc; left; reflexivity).
      apply collectGaps_shape in Hg. destruct Hg as (e & He & Hq & _).
      apply qualifies_true in Hq. destruct (Hno e He Hq).
  - intros s' Hret.
    assert (Hc := identifyLearningGaps_returned _ _ _ _ _ Hret).
    symmetry in Hc. rewrite (Hrun Hc) in Hret. congruence.
Qed.

(** ** Difficulty adjustment *)

Section ComparisonFacts.

Lemma Qle_bool_false (x y : Q) : Qle_bool x y = false <-> y < x.
Proof.
  split.
  - intros H. apply Qnot_le_lt. intros Hle.
    apply Qle_bool_iff in Hle. congruence.
  - intros H. destruct (Qle_bool x y) eqn:Hb; [|reflexivity].
    apply Qle_bool_iff in Hb. exfalso. apply (Qlt_not_le _ _ H Hb).
Qed.

Lemma geb_iff (x y : Q) b :
  JS.geb x y = b -> if b then y <= x else x < y.
Proof.
  unfold JS.geb. intros <-. destruct (Qle_bool y x) eqn:H.
  - apply Qle_bool_iff. exact H.
  - apply Qle_bool_false. exact H.
Qed.

Lemma leb_iff (x y : Q) b :
  JS.leb x y = b -> if b then x <= y else y < x.
Proof.
  unfold JS.leb. intros <-. destruct (Qle_bool x y) eqn:H.
  - apply Qle_bool_iff. exact H.
  - apply Qle_bool_false. exact H.
Qed.

Lemma ltb_iff (x y : Q) b :
  JS.ltb x y = b -> if b then x < y else y <= x.
Proof.
  unfold JS.ltb. intros <-. destruct (Qle_bool y x) eqn:H; simpl.
  - apply Qle_bool_iff. exact H.
  - apply Qle_bool_false. exact H.
Qed.

Lemma gtb_iff (x y : Q) b :
  JS.gtb x y = b -> if b then y < x else x <= y.
Proof.
  unfold JS.gtb. intros <-. destruct (Qle_bool x y) eqn:H; simpl.
  - apply Qle_bool_iff. exact H.
  - apply Qle_bool_false. exact H.
Qed.

End ComparisonFacts.

(** Case analysis on every comparison of the goal, each case recording the
    order it stands for *)
Ltac split_comparisons :=
  repeat
    match goal with
    | |- context [JS.geb ?x ?y] =>
        let H := fresh "Hcmp" in
        destruct (JS.geb x y) eqn:H; apply geb_iff in H
    | |- context [JS.leb ?x ?y] =>
        let H := fresh "Hcmp" in
        destruct (JS.leb x y) eqn:H; apply leb_iff in H
    | |- context [JS.ltb ?x ?y] =>
        let H := fresh "Hcmp" in
        destruct (JS.ltb x y) eqn:H; apply ltb_iff in H
    | |- context [JS.gtb ?x ?y] =>
        let H := fresh "Hcmp" in
        destruct (JS.gtb x y) eqn:H; apply gtb_iff in H
    end.

(** X12. [adjustDifficulty] moves by one level at most, and applying it
    again to its own result with the same events and metrics never moves
    back: after a promotion it does not demote, after a demotion it does not
    promote. *)
Theorem adjustDifficulty_steps (current : Difficulty)
    (recentPerformance : list StudentProgress.t)
    (metrics : PerformanceMetrics.t) :
  let next :=
    DifficultyAdjuster.adjustDifficulty current recentPerformance metrics in
  let again :=
    DifficultyAdjuster.adjustDifficulty next recentPerformance metrics in
  (Z.abs (Spec.level next - Spec.level current) <= 1)%Z
  /\ ((Spec.level current < Spec.level next)%Z ->
      (Spec.level next <= Spec.level again)%Z)
  /\ ((Spec.level next < Spec.level current)%Z ->
      (Spec.level again <= Spec.level next)%Z).
Proof.
  unfold DifficultyAdjuster.adjustDifficulty.
  destruct (length recentPerformance <? 3)%nat.
  { simpl. lia. }
  set (avgScore := fold_left _ recentPerformance 0 / _).
  set (avgAttempts := fold_left _ recentPerformance 0 / _).
  set (consistency := PerformanceMetrics.consistency metrics).
  destruct current; cbv zeta; split_comparisons; simpl;
    split_comparisons; simpl;
    repeat split; intros; try lia; exfalso; lra.
Qed.

(** X13. [getRecommendedDifficulty] recommends beginner for a subject
    without a score, and never a lower level for a higher subject score and
    consistency. *)
Theorem getRecommendedDifficulty_monotone (subject : string)
    (m1 m2 : PerformanceMetrics.t) :
  (Dict.get subject (PerformanceMetrics.subjectScores m1) = None ->
   DifficultyAdjuster.getRecommendedDifficulty subject m1 = beginner)
  /\ (Dict.get_or 0 subject (PerformanceMetrics.subjectScores m1)
      <= Dict.get_or 0 subject (PerformanceMetrics.subjectScores m2) ->
      PerformanceMetrics.consistency m1 <= PerformanceMetrics.consistency m2 ->
      (Spec.level (DifficultyAdjuster.getRecommendedDifficulty subject m1)
       <= Spec.level (DifficultyAdjuster.getRecommendedDifficulty subject m2))%Z).
Proof.
  unfold DifficultyAdjuster.getRecommendedDifficulty, Dict.get_or. split.
  - intros ->. reflexivity.
  - intros Hs Hc.
    assert (Hfalsy : forall v, JS.falsy v = true -> v == 0).
    { intros v Hv. apply Qeq_bool_eq. exact Hv. }
    destruct (Dict.get subject (PerformanceMetrics.subjectScores m1)) as [v1|];
      destruct (Dict.get subject (PerformanceMetrics.subjectScores m2)) as [v2|];
      try (destruct (JS.falsy v1) eqn:Hf1; [apply Hfalsy in Hf1|]);
      try (destruct (JS.falsy v2) eqn:Hf2; [apply Hfalsy in Hf2|]);
      split_comparisons; simpl; try lia; exfalso; lra.
Qed.

Lemma getRecommendedDifficulty_monotone_witness :
  DifficultyAdjuster.getRecommendedDifficulty "Art"
    (Sample.metricsOf "ann" 80 50) = beginner
  /\ (Spec.level
        (DifficultyAdjuster.getRecommendedDifficulty "Math"
           (Sample.metricsOf "ann" 60 50))
      <= Spec.level
           (DifficultyAdjuster.getRecommendedDifficulty "Math"
              (Sample.metricsOf "cat" 80 70)))%Z.
Proof.
  split.
  - apply (getRecommendedDifficulty_monotone "Art"
             (Sample.metricsOf "ann" 80 50) (Sample.metricsOf "ann" 80 50)).
    reflexivity.
  - apply (getRecommendedDifficulty_monotone "Math"
             (Sample.metricsOf "ann" 60 50) (Sample.metricsOf "cat" 80 70));
      vm_compute; discriminate.
Defined.

(** X14. The learning speed multiplier never decreases when overallScore
    and consistency do not decrease. *)
Theorem learning_speed_multiplier_monotone (m1 m2 : PerformanceMetrics.t) :
  PerformanceMetrics.overallScore m1 <= PerformanceMetrics.overallScore m2 ->
  PerformanceMetrics.consistency m1 <= PerformanceMetrics.consistency m2 ->
  DifficultyAdjuster.getLearningSpeadMultiplier m1
  <= DifficultyAdjuster.getLearningSpeadMultiplier m2.
Proof.
  intros Hs Hc. unfold DifficultyAdjuster.getLearningSpeadMultiplier.
  cbv zeta. split_comparisons;
    first [ exfalso; lra | vm_compute; discriminate ].
Qed.

Lemma learning_speed_multiplier_monotone_witness :
  DifficultyAdjuster.getLearningSpeadMultiplier (Sample.metricsOf "ann" 60 50)
  <= DifficultyAdjuster.getLearningSpeadMultiplier
       (Sample.metricsOf "cat" 80 70).
Proof.
  apply (learning_speed_multiplier_monotone
           (Sample.metricsOf "ann" 60 50) (Sample.metricsOf "cat" 80 70));
    vm_compute; discriminate.
Defined.

(** X15. [generateStudyRecommendations] returns at most seven lines, and
    none exactly when the overall score is in [60, 85), consistency is at
    least 50, learning velocity is within [3, 10] and the snapshot lists
    neither weaknesses nor strengths. *)
Theorem generateStudyRecommendations_empty (metrics : PerformanceMetrics.t) :
  (length (DifficultyAdjuster.generateStudyRecommendations metrics) <= 7)%nat
  /\ (DifficultyAdjuster.generateStudyRecommendations metrics = []
      <-> 60 <= PerformanceMetrics.overallScore metrics
          /\ PerformanceMetrics.overallScore metrics < 85
          /\ 50 <= PerformanceMetrics.consistency metrics
          /\ 3 <= PerformanceMetrics.learningVelocity metrics
          /\ PerformanceMetrics.learningVelocity metrics <= 10
          /\ PerformanceMetrics.weaknesses metrics = []
          /\ PerformanceMetrics.strengths metrics = []).
Proof.
  unfold DifficultyAdjuster.generateStudyRecommendations. cbv zeta.
  destruct (PerformanceMetrics.weaknesses metrics) as [|w ws];
    destruct (PerformanceMetrics.strengths metrics) as [|t ts];
    split_comparisons; cbn [length Nat.ltb Nat.leb app];
    (split; [lia|]);
    (split;
     [ intros Hnil; try discriminate Hnil; repeat split; assumption
     | intros (H1 & H2 & H3 & H4 & H5 & H6 & H7);
       try discriminate; try reflexivity; exfalso; lra ]).
Qed.

(** ** Matchmaking: the matches returned *)

(** X16. The compatibility score is symmetric in the two students'
    metrics. *)
Theorem calculateCompatibility_symmetric (metrics1 metrics2 : PerformanceMetrics.t)
    (commonSubjects : list string) (preferences : StudyPreferences.t) :
  StudyMatchmaker.calculateCompatibility metrics1 metrics2 commonSubjects
    preferences
  = StudyMatchmaker.calculateCompatibility metrics2 metrics1 commonSubjects
      preferences.
Proof.
  unfold StudyMatchmaker.calculateCompatibility, JS.Math_abs.
  rewrite (Qabs_Qminus (PerformanceMetrics.overallScore metrics1)).
  rewrite (Qabs_Qminus (PerformanceMetrics.consistency metrics1)).
  reflexivity.
Qed.

Section MatchFacts.
Import Firestore Async StudyMatchmaker.

Lemma similarity_range (a b : Q) :
  0 <= JS.Math_max 0 (30 - JS.Math_abs (a - b)) * (30 / 30)
  /\ JS.Math_max 0 (30 - JS.Math_abs (a - b)) * (30 / 30) <= 30.
Proof.
  unfold JS.Math_max, JS.Math_abs.
  assert (H0 : 0 <= Qmax 0 (30 - Qabs (a - b))) by apply Q.le_max_l.
  assert (H30 : Qmax 0 (30 - Qabs (a - b)) <= 30).
  { apply Q.max_lub; [discriminate|].
    pose proof (Qabs_nonneg (a - b)). lra. }
  assert (H1 : 30 / 30 == 1) by reflexivity.
  rewrite H1. lra.
Qed.

Lemma filter_length_pos {A} (P : A -> bool) (l : list A) :
  (length (List.filter P l) =? 0)%nat = false ->
  (0 < length (List.filter P l) <= length l)%nat.
Proof.
  intros H. apply Nat.eqb_neq in H.
  pose proof (filter_length_le P l). lia.
Qed.

Lemma calculateCompatibility_range metrics1 metrics2 preferences :
  (length (commonSubjectsOf preferences metrics2) =? 0)%nat = false ->
  calculateCompatibility metrics1 metrics2
    (commonSubjectsOf preferences metrics2) preferences <= 100.
Proof.
  intros Hlen. unfold commonSubjectsOf in *.
  apply filter_length_pos in Hlen.
  unfold calculateCompatibility.
  match goal with
  | |- JS.Math_round ?x <= 100 => destruct (Math_round_range x) as [_ H]
  end; [| |exact H].
  - pose proof (similarity_range (PerformanceMetrics.overallScore metrics1)
                  (PerformanceMetrics.overallScore metrics2)) as [H1 _].
    pose proof (similarity_range (PerformanceMetrics.consistency metrics1)
                  (PerformanceMetrics.consistency metrics2)) as [H2 _].
    match goal with
    | |- context [JS.of_nat ?c / JS.of_nat ?p * 40] =>
        assert (Hq : 0 <= JS.of_nat c / JS.of_nat p * 40)
    end.
    { apply Qmult_le_0_compat; [|discriminate].
      apply Qle_shift_div_l; [apply of_nat_pos; lia|].
      ring_simplify. apply of_nat_nonneg. }
    lra.
  - pose proof (similarity_range (PerformanceMetrics.overallScore metrics1)
                  (PerformanceMetrics.overallScore metrics2)) as [_ H1].
    pose proof (similarity_range (PerformanceMetrics.consistency metrics1)
                  (PerformanceMetrics.consistency metrics2)) as [_ H2].
    match goal with
    | |- context [JS.of_nat ?c / JS.of_nat ?p * 40] =>
        assert (Hq : JS.of_nat c / JS.of_nat p * 40 <= 40)
    end.
    { assert (Hd : JS.of_nat
                     (length (List.filter
                        (fun subject =>
                           AnalyticsService.includes subject
                             (Dict.keys (PerformanceMetrics.subjectScores metrics2)))
                        (StudyPreferences.subjects preferences)))
                   / JS.of_nat (length (StudyPreferences.subjects preferences))
                   <= 1).
      { apply Qle_shift_div_r; [apply of_nat_pos; lia|].
        ring_simplify. apply of_nat_le. lia. }
      lra. }
    lra.
Qed.

Lemma considerCandidate_matchFor studentId preferences now studentMetrics
    users matches candidate s :
  fst candidate <> studentId ->
  In candidate users ->
  role (snd candidate) = "student" ->
  Forall (Spec.matchFor studentId preferences now users) matches ->
  exists matches' s',
    considerCandidate studentId preferences now studentMetrics matches
      candidate s = Returned matches' s'
    /\ Forall (Spec.matchFor studentId preferences now users) matches'.
Proof.
  intros Hne Hin Hrole Hm. unfold considerCandidate, bind.
  destruct (getPerformanceMetrics_returns (fst candidate) now s)
    as ([cm|] & s' & ->); [|eauto].
  destruct (length (commonSubjectsOf preferences cm) =? 0)%nat eqn:Hlen;
    [eauto|].
  destruct (JS.geb _ 60) eqn:Hge; [|eauto].
  do 2 eexists. split; [reflexivity|].
  apply Forall_app. split; [assumption|].
  constructor; [|constructor].
  unfold Spec.matchFor.
  cbn [StudyMatch.student1 StudyMatch.student2 StudyMatch.matchId
       StudyMatch.commonSubjects StudyMatch.compatibilityScore
       StudyMatch.studyPreferences StudyMatch.matchedAt].
  repeat split; try assumption.
  - exists (snd candidate). split; [|assumption].
    destruct candidate. exact Hin.
  - intros Hnil. rewrite Hnil in Hlen. discriminate Hlen.
  - intros subject Hs. unfold commonSubjectsOf in Hs.
    apply filter_In in Hs. tauto.
  - apply Qle_bool_imp_le. exact Hge.
  - apply calculateCompatibility_range. exact Hlen.
Qed.

Lemma scan_candidates_matchFor studentId preferences now studentMetrics users
    candidates : forall matches s,
  Forall (fun c => fst c <> studentId /\ In c users
                   /\ role (snd c) = "student") candidates ->
  Forall (Spec.matchFor studentId preferences now users) matches ->
  exists matches' s',
    for_fold candidates matches
      (considerCandidate studentId preferences now studentMetrics) s
    = Returned matches' s'
    /\ Forall (Spec.matchFor studentId preferences now users) matches'.
Proof.
  induction candidates as [|c candidates IH]; intros matches s Hc Hm; simpl.
  - eauto.
  - inversion Hc as [|? ? (Hne & Hin & Hrole) Hc']; subst.
    unfold bind.
    destruct (considerCandidate_matchFor studentId preferences now
                studentMetrics users matches c s Hne Hin Hrole Hm)
      as (ms & s1 & -> & Hms).
    apply IH; assumption.
Qed.

Lemma candidates_are_students studentId (s : Store) :
  Forall (fun c => fst c <> studentId /\ In c (users s)
                   /\ role (snd c) = "student")
    (List.filter (fun d => negb (String.eqb (fst d) studentId))
       (List.filter (fun d => String.eqb (role (snd d)) "student") (users s))).
Proof.
  apply List.Forall_forall. intros c Hc.
  apply filter_In in Hc. destruct Hc as [Hc Hne].
  apply filter_In in Hc. destruct Hc as [Hin Hrole].
  apply negb_true_iff, String.eqb_neq in Hne.
  apply String.eqb_eq in Hrole. auto.
Qed.

Lemma ranking_sorted (l : list StudyMatch.t) :
  StronglySorted Spec.notWorse (JS.sort byScoreDesc l).
Proof.
  apply sort_sorted; unfold Spec.notWorse, byScoreDesc.
  - intros x y H. apply gtb_pos in H. lra.
  - intros x y H. apply gtb_nonpos in H. lra.
  - intros x y z H1 H2. lra.
Qed.

Lemma slice0_sorted {A} (R : A -> A -> Prop) n (l : list A) :
  StronglySorted R l -> StronglySorted R (JS.slice0 n l).
Proof.
  unfold JS.slice0. intros Hl. revert n.
  induction Hl as [|x l Hl IH Hx]; intros [|n]; simpl; try constructor.
  - apply IH.
  - apply (slice0_Forall _ n l Hx).
Qed.

End MatchFacts.

(** X17. The matches that [findStudyMatches] returns are ranked by
    descending compatibilityScore, and each pairs the student with a
    different user of role student, is named after the pair, shares at least
    one subject, all of them preferred ones, and has a score between 60 and
    100. *)
Theorem findStudyMatches_ranked_matches (studentId : string)
    (preferences : StudyPreferences.t) (now : Date) (s : Firestore.Store) :
  exists matches s',
    StudyMatchmaker.findStudyMatches studentId preferences now s
    = Async.Returned matches s'
    /\ StronglySorted Spec.notWorse matches
    /\ Forall (Spec.matchFor studentId preferences now (Firestore.users s))
         matches.
Proof.
  unfold StudyMatchmaker.findStudyMatches, Async.bind, Async.read.
  destruct (getPerformanceMetrics_returns studentId now s)
    as ([sm|] & s1 & ->).
  - destruct (scan_candidates_matchFor studentId preferences now sm
                (Firestore.users s) _ [] s1
                (candidates_are_students studentId s) (List.Forall_nil _))
      as (ms & s2 & -> & Hms).
    rewrite for_each_write_fold.
    do 2 eexists. split; [reflexivity|]. split.
    + apply slice0_sorted, ranking_sorted.
    + apply slice0_Forall, sort_Forall. exact Hms.
  - do 2 eexists. split; [reflexivity|]. split; constructor.
Qed.

Section MatchStoreFacts.
Import Firestore Async StudyMatchmaker.

Lemma getPerformanceMetrics_keeps_matches studentId now s r s' :
  ProgressTracker.getPerformanceMetrics studentId now s = Returned r s' ->
  studyMatches s' = studyMatches s.
Proof.
  rewrite getPerformanceMetrics_cases.
  destruct (performanceMetrics s !! studentId);
    [|destruct (ProgressTracker.studentHistory studentId s)];
    intros [= <- <-]; reflexivity.
Qed.

Lemma considerCandidate_ids studentId preferences now studentMetrics
    matches candidate s :
  exists matches' s',
    considerCandidate studentId preferences now studentMetrics matches
      candidate s = Returned matches' s'
    /\ (matches' = matches
        \/ exists m, matches' = (matches ++ [m])%list
                     /\ StudyMatch.student2 m = fst candidate)
    /\ studyMatches s' = studyMatches s.
Proof.
  unfold considerCandidate, bind.
  destruct (getPerformanceMetrics_returns (fst candidate) now s)
    as (r & s' & Hget).
  rewrite Hget. apply getPerformanceMetrics_keeps_matches in Hget.
  destruct r as [cm|]; [|eauto 10].
  destruct (length (commonSubjectsOf preferences cm) =? 0)%nat; [eauto 10|].
  destruct (JS.geb _ 60); [|eauto 10].
  do 2 eexists. split; [reflexivity|]. split; [|assumption].
  right. eexists. split; reflexivity.
Qed.

Lemma scan_candidates_ids studentId preferences now studentMetrics
    candidates : forall matches s,
  List.NoDup (map fst candidates) ->
  List.NoDup (map StudyMatch.student2 matches) ->
  (forall m, In m matches ->
     ~ In (StudyMatch.student2 m) (map fst candidates)) ->
  exists matches' s',
    for_fold candidates matches
      (considerCandidate studentId preferences now studentMetrics) s
    = Returned matches' s'
    /\ List.NoDup (map StudyMatch.student2 matches')
    /\ studyMatches s' = studyMatches s.
Proof.
  induction candidates as [|c candidates IH];
    intros matches s Hcs Hms Hfresh; simpl.
  - eauto.
  - inversion Hcs as [|? ? Hc Hcs']; subst. unfold bind.
    destruct (considerCandidate_ids studentId preferences now studentMetrics
                matches c s) as (ms & s1 & -> & Hshape & Hs1).
    destruct (IH ms s1) as (ms' & s' & Hrun & Hnd & Hs'); try assumption.
    + destruct Hshape as [->|(m & -> & Hm)]; [assumption|].
      rewrite map_app. apply List.NoDup_app; [assumption | |].
      * simpl. constructor; [intros [] | constructor].
      * intros uid Hin [<-|[]]. apply in_map_iff in Hin.
        destruct Hin as (m' & Heq & Hm').
        apply (Hfresh m' Hm'). left. congruence.
    + intros m Hin Hbad.
      destruct Hshape as [->|(m0 & -> & Hm0)].
      * apply (Hfresh m Hin). right. exact Hbad.
      * apply in_app_or in Hin. destruct Hin as [Hin|[<-|[]]].
        -- apply (Hfresh m Hin). right. exact Hbad.
        -- rewrite Hm0 in Hbad. contradiction.
    + exists ms', s'. split; [exact Hrun|]. split; [exact Hnd | congruence].
Qed.

Lemma filter_keeps_NoDup {A B} (f : A -> B) (P : A -> bool) (l : list A) :
  List.NoDup (map f l) -> List.NoDup (map f (List.filter P l)).
Proof.
  induction l as [|x l IH]; simpl; intros Hnd; [constructor|].
  inversion Hnd as [|? ? Hx Hnd']; subst.
  destruct (P x); simpl; [|auto].
  constructor; [|auto].
  intros Hin. apply Hx. apply in_map_iff in Hin.
  destruct Hin as (y & Hy & Hin). apply filter_In in Hin.
  apply in_map_iff. exists y. tauto.
Qed.

Lemma slice0_keeps_NoDup {A B} (f : A -> B) n (l : list A) :
  List.NoDup (map f l) -> List.NoDup (map f (JS.slice0 n l)).
Proof.
  unfold JS.slice0. intros Hnd.
  rewrite <- (firstn_skipn n l), map_app in Hnd.
  apply NoDup_app_remove_r in Hnd. exact Hnd.
Qed.

Lemma set_matches_store (l : list StudyMatch.t) : forall s,
  studyMatches
    (fold_left (fun s m => set_studyMatch (StudyMatch.matchId m) m s) l s)
  = fold_left (fun mm m => <[StudyMatch.matchId m := m]> mm) l
      (studyMatches s).
Proof.
  induction l as [|m l IH]; intros s; simpl; [reflexivity|].
  rewrite IH. reflexivity.
Qed.

Lemma matchIds_NoDup studentId preferences now users (l : list StudyMatch.t) :
  Forall (Spec.matchFor studentId preferences now users) l ->
  List.NoDup (map StudyMatch.student2 l) ->
  List.NoDup (map StudyMatch.matchId l).
Proof.
  intros HP Hnd.
  assert (Hids : map StudyMatch.matchId l
                 = map (fun uid => studentId +:+ "-" +:+ uid)
                       (map StudyMatch.student2 l)).
  { induction HP as [|m l Hm HP IH]; simpl; [reflexivity|].
    inversion Hnd; subst. rewrite IH by assumption.
    destruct Hm as (_ & _ & _ & -> & _). reflexivity. }
  rewrite Hids. apply NoDup_map_NoDup_ForallPairs; [|exact Hnd].
  intros a b _ _ Heq. apply append_inj_r in Heq.
  apply append_inj_r in Heq. exact Heq.
Qed.

End MatchStoreFacts.

(** X18. When the user ids are distinct, every match that
    [findStudyMatches] returns is afterwards stored under its matchId, the
    matchIds being distinct, and no other document of the studyMatches
    collection is changed. *)
Theorem findStudyMatches_persists_matches (studentId : string)
    (preferences : StudyPreferences.t) (now : Date) (s : Firestore.Store) :
  List.NoDup (map fst (Firestore.users s)) ->
  exists matches s',
    StudyMatchmaker.findStudyMatches studentId preferences now s
    = Async.Returned matches s'
    /\ List.NoDup (map StudyMatch.matchId matches)
    /\ (forall m, In m matches ->
          Firestore.studyMatches s' !! StudyMatch.matchId m = Some m)
    /\ (forall id, ~ In id (map StudyMatch.matchId matches) ->
          Firestore.studyMatches s' !! id = Firestore.studyMatches s !! id).
Proof.
  intros Husers.
  unfold StudyMatchmaker.findStudyMatches, Async.bind, Async.read.
  destruct (getPerformanceMetrics_returns studentId now s)
    as (r & s1 & Hget).
  rewrite Hget. apply getPerformanceMetrics_keeps_matches in Hget.
  destruct r as [sm|].
  - destruct (scan_candidates_matchFor studentId preferences now sm
                (Firestore.users s) _ [] s1
                (candidates_are_students studentId s) (List.Forall_nil _))
      as (ms & s2 & Hrun & Hms).
    destruct (scan_candidates_ids studentId preferences now sm
                (List.filter (fun d => negb (String.eqb (fst d) studentId))
                   (List.filter
                      (fun d => String.eqb (Firestore.role (snd d)) "student")
                      (Firestore.users s))) [] s1)
      as (ms' & s2' & Hrun' & Hnd & Hs2).
    { apply filter_keeps_NoDup, filter_keeps_NoDup. exact Husers. }
    { constructor. }
    { intros m []. }
    rewrite Hrun in Hrun'. injection Hrun' as <- <-.
    rewrite Hrun, for_each_write_fold.
    assert (Htop : List.NoDup
                     (map StudyMatch.matchId
                        (JS.slice0 5 (JS.sort StudyMatchmaker.byScoreDesc ms)))).
    { apply (matchIds_NoDup studentId preferences now (Firestore.users s)).
      - apply slice0_Forall, sort_Forall. exact Hms.
      - apply slice0_keeps_NoDup.
        apply (Permutation_NoDup
                 (Permutation_map _
                    (Permutation_sym (sort_perm StudyMatchmaker.byScoreDesc ms)))).
        exact Hnd. }
    do 2 eexists. split; [reflexivity|]. split; [exact Htop|].
    rewrite set_matches_store, Hs2, Hget. split.
    + intros m Hm. apply inserts_lookup; assumption.
    + intros id Hid. apply inserts_lookup_other. exact Hid.
  - do 2 eexists. split; [reflexivity|]. split; [constructor|].
    rewrite Hget. split; [intros m [] | reflexivity].
Qed.

Lemma findStudyMatches_persists_matches_witness :
  exists matches s',
    StudyMatchmaker.findStudyMatches "ann" Sample.mathOnly 5000
      Sample.pairStore
    = Async.Returned matches s'
    /\ List.NoDup (map StudyMatch.matchId matches)
    /\ (forall m, In m matches ->
          Firestore.studyMatches s' !! StudyMatch.matchId m = Some m)
    /\ (forall id, ~ In id (map StudyMatch.matchId matches) ->
          Firestore.studyMatches s' !! id
          = Firestore.studyMatches Sample.pairStore !! id).
Proof.
  apply (findStudyMatches_persists_matches "ann" Sample.mathOnly 5000
           Sample.pairStore).
  simpl. repeat constructor; simpl; intuition discriminate.
Defined.

(** ** Reports and insights *)

Section ReportFacts.
Import AnalyticsService.

Lemma groupStep_get acc p k :
  Dict.get k (groupStep acc p)
  = if decide (k = StudentProgress.subject p)
    then Some (Dict.get_or [] k acc ++ [p])%list
    else Dict.get k acc.
Proof.
  unfold groupStep, Dict.has, Dict.get_or. cbv zeta.
  destruct (decide (k = StudentProgress.subject p)) as [->|Hne].
  - destruct (Dict.get (StudentProgress.subject p) acc) as [evs|] eqn:Hg;
      rewrite !dict_get_set;
      destruct (decide (StudentProgress.subject p = StudentProgress.subject p));
      try congruence; rewrite ?Hg; reflexivity.
  - destruct (Dict.get (StudentProgress.subject p) acc);
      rewrite !dict_get_set;
      destruct (decide (k = StudentProgress.subject p)); congruence.
Qed.

Lemma groupStep_NoDup acc p :
  List.NoDup (Dict.keys acc) -> List.NoDup (Dict.keys (groupStep acc p)).
Proof.
  intros Hnd. unfold groupStep. cbv zeta.
  destruct (Dict.has _ acc); repeat apply dict_set_NoDup; assumption.
Qed.

Lemma group_fold_NoDup l : forall acc,
  List.NoDup (Dict.keys acc) ->
  List.NoDup (Dict.keys (fold_left groupStep l acc)).
Proof.
  induction l as [|p l IH]; intros acc Hnd; simpl; [assumption|].
  apply IH, groupStep_NoDup, Hnd.
Qed.

(** Grouping files every event under its subject, in order. *)
Lemma group_fold_get l : forall acc k,
  Dict.get k (fold_left groupStep l acc)
  = match Dict.get k acc,
          List.filter (fun e => String.eqb (StudentProgress.subject e) k) l with
    | Some evs, f => Some (evs ++ f)%list
    | None, [] => None
    | None, f => Some f
    end.
Proof.
  induction l as [|p l IH]; intros acc k; simpl.
  - destruct (Dict.get k acc); [rewrite app_nil_r|]; reflexivity.
  - rewrite IH, groupStep_get. unfold Dict.get_or.
    destruct (String.eqb_spec (StudentProgress.subject p) k) as [Hk|Hk].
    + destruct (decide (k = StudentProgress.subject p)); [|congruence].
      destruct (Dict.get k acc); [rewrite <- app_assoc|]; reflexivity.
    + destruct (decide (k = StudentProgress.subject p)); [congruence|].
      reflexivity.
Qed.

Lemma subjectReport_subject metrics (d : Dict.t string (list StudentProgress.t)) :
  map SubjectReport.subject (map (subjectReport metrics) d) = Dict.keys d.
Proof.
  unfold Dict.keys. rewrite map_map. apply map_ext. intros [k evs]. reflexivity.
Qed.

End ReportFacts.

(** X19. A report lists every subject that has an event within the period
    once, and no other subject; the topicsCompleted of each subject report
    is the number of distinct topics among the period's events of that
    subject, and its topicsTotal is topicsCompleted + 5. *)
Theorem report_subjects_by_period (studentId : string)
    (startDate endDate now : Date) (progress : list StudentProgress.t)
    (metrics : PerformanceMetrics.t) :
  let period :=
    List.filter
      (fun p => (startDate <=? StudentProgress.completedAt p)%Z
                && (StudentProgress.completedAt p <=? endDate)%Z)
      progress in
  let subjects :=
    StudentReport.subjects
      (AnalyticsService.buildReport studentId startDate endDate now progress
         metrics) in
  List.NoDup (map SubjectReport.subject subjects)
  /\ (forall subject,
        In subject (map SubjectReport.subject subjects)
        <-> exists e, In e period /\ StudentProgress.subject e = subject)
  /\ (forall r, In r subjects ->
        let events :=
          List.filter
            (fun e => String.eqb (StudentProgress.subject e)
                        (SubjectReport.subject r))
            period in
        events <> []
        /\ SubjectReport.topicsCompleted r
           = JS.of_nat
               (size (list_to_set (map StudentProgress.topic events)
                      : gset string))
        /\ SubjectReport.topicsTotal r = SubjectReport.topicsCompleted r + 5).
Proof.
  intros period subjects. unfold subjects.
  cbn [AnalyticsService.buildReport StudentReport.subjects]. fold period.
  assert (Hnd : List.NoDup
                  (Dict.keys (fold_left AnalyticsService.groupStep period [])))
    by (apply group_fold_NoDup; constructor).
  assert (Hget : forall k evs,
            Dict.get k (fold_left AnalyticsService.groupStep period [])
            = Some evs ->
            evs = List.filter
                    (fun e => String.eqb (StudentProgress.subject e) k) period
            /\ evs <> []).
  { intros k evs. rewrite group_fold_get. simpl.
    destruct (List.filter _ period) as [|e f]; [discriminate|].
    intros [= <-]. split; [reflexivity | discriminate]. }
  rewrite subjectReport_subject. split; [exact Hnd|]. split.
  - intros subject. split.
    + intros Hin.
      destruct (Dict.get subject
                  (fold_left AnalyticsService.groupStep period []))
        as [evs|] eqn:Hg.
      * destruct (Hget _ _ Hg) as [-> Hne].
        destruct (List.filter _ period) as [|e f] eqn:Hf; [congruence|].
        assert (He : In e (e :: f)) by (left; reflexivity).
        rewrite <- Hf in He. apply filter_In in He.
        exists e. rewrite String.eqb_eq in He. exact He.
      * apply dict_get_keys in Hg. contradiction.
    + intros (e & He & Hs).
      destruct (Dict.get subject
                  (fold_left AnalyticsService.groupStep period []))
        as [evs|] eqn:Hg.
      * apply dict_get_In in Hg. change subject with (fst (subject, evs)).
        apply in_map. exact Hg.
      * rewrite group_fold_get in Hg. simpl in Hg.
        destruct (List.filter _ period) as [|e' f] eqn:Hf; [|discriminate].
        assert (Hin : In e (List.filter
                  (fun e => String.eqb (StudentProgress.subject e) subject)
                  period)).
        { apply filter_In. split; [exact He | apply String.eqb_eq; exact Hs]. }
        rewrite Hf in Hin. destruct Hin.
  - intros r Hr. apply in_map_iff in Hr. destruct Hr as ([k evs] & <- & Hin).
    apply (dict_NoDup_get _ _ _ Hnd) in Hin.
    destruct (Hget _ _ Hin) as [Hevs Hne].
    cbn [AnalyticsService.subjectReport SubjectReport.subject
         SubjectReport.score SubjectReport.topicsTotal
         SubjectReport.topicsCompleted].
    rewrite <- Hevs. split; [exact Hne|]. split; reflexivity.
Qed.

(** X20. When no event of the history lies within the period, as for a
    period whose end precedes its start, the report has no subject
    entries. *)
Theorem report_of_empty_period (studentId : string)
    (startDate endDate now : Date) (progress : list StudentProgress.t)
    (metrics : PerformanceMetrics.t) :
  (endDate < startDate)%Z ->
  StudentReport.subjects
    (AnalyticsService.buildReport studentId startDate endDate now progress
       metrics) = [].
Proof.
  intros Hlt. cbn [AnalyticsService.buildReport StudentReport.subjects].
  assert (Hf : List.filter
                 (fun p => (startDate <=? StudentProgress.completedAt p)%Z
                           && (StudentProgress.completedAt p <=? endDate)%Z)
                 progress = []).
  { induction progress as [|p l IH]; simpl; [reflexivity|].
    destruct (Z.leb_spec startDate (StudentProgress.completedAt p));
      destruct (Z.leb_spec (StudentProgress.completedAt p) endDate);
      simpl; try exact IH. lia. }
  rewrite Hf. reflexivity.
Qed.

Lemma report_of_empty_period_witness :
  StudentReport.subjects
    (AnalyticsService.buildReport "ann" 9000 1000 5000 Sample.twoPerfect
       (Sample.metricsOf "ann" 100 50)) = [].
Proof.
  apply (report_of_empty_period "ann" 9000 1000 5000 Sample.twoPerfect
           (Sample.metricsOf "ann" 100 50)).
  lia.
Defined.

Section InsightFacts.
Import Firestore Async AnalyticsService.

Lemma collectInsights_length metrics gaps now :
  length (collectInsights metrics gaps now)
  = (length (PerformanceMetrics.strengths metrics)
     + length (PerformanceMetrics.weaknesses metrics)
     + (if JS.ltb (PerformanceMetrics.consistency metrics) 50 then 1 else 0)
     + (if JS.ltb (PerformanceMetrics.learningVelocity metrics) 3 then 1 else 0))%nat.
Proof.
  unfold collectInsights. cbv zeta.
  destruct (JS.ltb (PerformanceMetrics.consistency metrics) 50);
    destruct (JS.ltb (PerformanceMetrics.learningVelocity metrics) 3);
    rewrite ?length_app, ?length_map; simpl; lia.
Qed.

Lemma collectInsights_shape metrics gaps now :
  Forall (fun g => length (LearningGap.suggestedResources g) = 4%nat) gaps ->
  Forall (fun i => AnalyticsInsight.type i <> AnalyticsInsight.strength
                   /\ (2 <= length (AnalyticsInsight.actionItems i))%nat
                   /\ AnalyticsInsight.createdAt i = now)
    (collectInsights metrics gaps now).
Proof.
  intros Hgaps. unfold collectInsights. cbv zeta.
  assert (HA : Forall
            (fun i => AnalyticsInsight.type i <> AnalyticsInsight.strength
                      /\ (2 <= length (AnalyticsInsight.actionItems i))%nat
                      /\ AnalyticsInsight.createdAt i = now)
            (map (achievementInsight now) (PerformanceMetrics.strengths metrics))).
  { apply List.Forall_forall. intros i Hi.
    apply in_map_iff in Hi. destruct Hi as (x & <- & _).
    simpl. repeat split; [discriminate | lia]. }
  assert (HW : Forall
            (fun i => AnalyticsInsight.type i <> AnalyticsInsight.strength
                      /\ (2 <= length (AnalyticsInsight.actionItems i))%nat
                      /\ AnalyticsInsight.createdAt i = now)
            (map (weaknessInsight gaps now)
               (PerformanceMetrics.weaknesses metrics))).
  { apply List.Forall_forall. intros i Hi.
    apply in_map_iff in Hi. destruct Hi as (x & <- & _).
    unfold weaknessInsight. cbn [AnalyticsInsight.type
      AnalyticsInsight.actionItems AnalyticsInsight.createdAt].
    repeat split; [discriminate|].
    destruct (List.filter _ gaps) as [|g rest] eqn:Hf; [simpl; lia|].
    assert (Hg : In g gaps).
    { assert (Hin : In g (g :: rest)) by (left; reflexivity).
      rewrite <- Hf in Hin. apply filter_In in Hin. tauto. }
    rewrite (proj1 (List.Forall_forall _ _) Hgaps g Hg). lia. }
  destruct (JS.ltb (PerformanceMetrics.consistency metrics) 50);
    destruct (JS.ltb (PerformanceMetrics.learningVelocity metrics) 3);
    repeat (apply Forall_app; split); try assumption;
    repeat constructor; simpl; try discriminate; lia.
Qed.

End InsightFacts.

(** X21. For a student id that is a valid document id, and a history in
    which the document id [studentId-subject-topic] of every event with
    score < 60 or attempts > 2 is valid: [generateInsights] returns no
    insight and writes nothing when the metrics lookup yields nothing.
    Otherwise it stores the returned batch under the student's id; the
    batch holds one insight per strength, one per weakness, one more when
    consistency is below 50 and one more when learning velocity is below
    3; no insight is of type strength and each names at least two action
    items. *)
Theorem generateInsights_batch (studentId : string) (now : Date)
    (insightsCollection : gmap string InsightsDoc.t) (s : Firestore.Store) :
  Firestore.validDocId studentId = true ->
  (forall e, In e (ProgressTracker.studentHistory studentId s) ->
     StudentProgress.score e < 60 \/ 2 < StudentProgress.attempts e ->
     Firestore.validDocId
       (studentId +:+ "-" +:+ StudentProgress.subject e
          +:+ "-" +:+ StudentProgress.topic e) = true) ->
  match ProgressTracker.getPerformanceMetrics studentId now s with
  | Async.Returned None _ =>
      AnalyticsService.generateInsights studentId now insightsCollection s
      = Async.Returned ([], insightsCollection) s
  | Async.Returned (Some metrics) _ =>
      exists insights s',
        AnalyticsService.generateInsights studentId now insightsCollection s
        = Async.Returned
            (insights,
             <[studentId := InsightsDoc.mk studentId insights now]>
               insightsCollection) s'
        /\ length insights
           = (length (PerformanceMetrics.strengths metrics)
              + length (PerformanceMetrics.weaknesses metrics)
              + (if JS.ltb (PerformanceMetrics.consistency metrics) 50
                 then 1 else 0)
              + (if JS.ltb (PerformanceMetrics.learningVelocity metrics) 3
                 then 1 else 0))%nat
        /\ Forall
             (fun i =>
                AnalyticsInsight.type i <> AnalyticsInsight.strength
                /\ (2 <= length (AnalyticsInsight.actionItems i))%nat
                /\ AnalyticsInsight.createdAt i = now)
             insights
  | Async.Thrown _ _ => False
  end.
Proof.
  intros Hid Hvalid.
  destruct (ProgressTracker.getPerformanceMetrics studentId now s)
    as [[metrics|] s1|msg s1] eqn:Hget.
  - unfold AnalyticsService.generateInsights, Async.bind. rewrite Hget.
    unfold ProgressTracker.identifyLearningGaps, Async.bind,
      ProgressTracker.getStudentProgress, Async.read.
    assert (Hp : Firestore.progress s1 = Firestore.progress s).
    { pose proof Hget as Hc. rewrite getPerformanceMetrics_cases in Hc.
      destruct (Firestore.performanceMetrics s !! studentId);
        [injection Hc as _ <-; reflexivity|].
      destruct (ProgressTracker.studentHistory studentId s);
        [discriminate|].
      injection Hc as _ <-. reflexivity. }
    assert (Hh : ProgressTracker.studentHistory studentId s1
                 = ProgressTracker.studentHistory studentId s).
    { unfold ProgressTracker.studentHistory. rewrite Hp. reflexivity. }
    rewrite for_each_saveGap
      by (apply collectGaps_valid; rewrite Hh; exact Hvalid).
    rewrite Hid.
    do 2 eexists. split; [reflexivity|]. split.
    + apply collectInsights_length.
    + apply collectInsights_shape. apply List.Forall_forall. intros g Hg.
      apply collectGaps_shape in Hg. destruct Hg as (e & _ & _ & ->).
      reflexivity.
  - destruct (getPerformanceMetrics_nothing _ _ _ _ Hget) as (-> & _ & Hh).
    unfold AnalyticsService.generateInsights, Async.bind. rewrite Hget.
    unfold ProgressTracker.identifyLearningGaps, Async.bind,
      ProgressTracker.getStudentProgress, Async.read.
    rewrite Hh. reflexivity.
  - destruct (getPerformanceMetrics_returns studentId now s) as (r & s' & H).
    congruence.
Qed.

Lemma generateInsights_batch_witness :
  match ProgressTracker.getPerformanceMetrics "ann" 5000 Sample.annStore with
  | Async.Returned None _ =>
      AnalyticsService.generateInsights "ann" 5000 ∅ Sample.annStore
      = Async.Returned ([], ∅) Sample.annStore
  | Async.Returned (Some metrics) _ =>
      exists insights s',
        AnalyticsService.generateInsights "ann" 5000 ∅ Sample.annStore
        = Async.Returned
            (insights, <["ann" := InsightsDoc.mk "ann" insights 5000]> ∅) s'
        /\ length insights
           = (length (PerformanceMetrics.strengths metrics)
              + length (PerformanceMetrics.weaknesses metrics)
              + (if JS.ltb (PerformanceMetrics.consistency metrics) 50
                 then 1 else 0)
              + (if JS.ltb (PerformanceMetrics.learningVelocity metrics) 3
                 then 1 else 0))%nat
        /\ Forall
             (fun i =>
                AnalyticsInsight.type i <> AnalyticsInsight.strength
                /\ (2 <= length (AnalyticsInsight.actionItems i))%nat
                /\ AnalyticsInsight.createdAt i = 5000%Z)
             insights
  | Async.Thrown _ _ => False
  end.
Proof.
  apply (generateInsights_batch "ann" 5000 ∅ Sample.annStore).
  - reflexivity.
  - intros e He _. vm_compute in He.
    repeat (destruct He as [<- | He]; [reflexivity|]). destruct He.
Defined.

(** ** Consistency counts calendar days *)

Section DayFacts.
Import ProgressTracker.

Lemma dayMap_dom (l : list StudentProgress.t) : forall dayMap : gmap Z Q,
  dom (fold_left
         (fun dayMap p =>
            let day := dayOf (StudentProgress.completedAt p) in
            <[day := default 0 (dayMap !! day) + 1]> dayMap)
         l dayMap)
  = dom dayMap
    ∪ list_to_set (map (fun p => dayOf (StudentProgress.completedAt p)) l).
Proof.
  induction l as [|p l IH]; intros dayMap; simpl.
  - rewrite (right_id_L ∅ (∪)). reflexivity.
  - rewrite IH, dom_insert_L.
    rewrite (comm_L (∪) {[dayOf (StudentProgress.completedAt p)]}).
    rewrite <- (assoc_L (∪)). reflexivity.
Qed.

End DayFacts.

(** X22. For a history of at least seven events, consistency is 0 when no
    event lies within the trailing 30 days, and otherwise the rounded
    percentage, capped at 100, of 30 days covered by the distinct calendar
    days on which those events were completed: several events on one day
    count once. *)
Theorem consistency_counts_distinct_days (now : Date)
    (progress : list StudentProgress.t) :
  (7 <= length progress)%nat ->
  let recent :=
    List.filter
      (fun p => (ProgressTracker.daysBefore now 30
                 <=? StudentProgress.completedAt p)%Z)
      progress in
  let activeDays : gset Z :=
    list_to_set
      (map (fun p => ProgressTracker.dayOf (StudentProgress.completedAt p))
           recent) in
  ProgressTracker.calculateConsistency now progress
  = match recent with
    | [] => 0
    | _ :: _ =>
        JS.Math_round
          (JS.Math_min 100 (JS.of_nat (size activeDays) / 30 * 100))
    end.
Proof.
  intros Hlen recent activeDays.
  unfold ProgressTracker.calculateConsistency.
  destruct (Nat.ltb_spec (length progress) 7); [lia|].
  fold recent. destruct recent as [|e rest] eqn:Hr; [reflexivity|].
  cbn [length Nat.eqb]. cbv zeta.
  rewrite <- size_dom, dayMap_dom, dom_empty_L, (left_id_L ∅ (∪)).
  reflexivity.
Qed.

Lemma consistency_counts_distinct_days_witness :
  ProgressTracker.calculateConsistency 5000
    (Sample.twoPerfect ++ Sample.twoPerfect ++ Sample.twoPerfect
     ++ Sample.twoPerfect)%list
  = 3.
Proof.
  rewrite (consistency_counts_distinct_days 5000
             (Sample.twoPerfect ++ Sample.twoPerfect ++ Sample.twoPerfect
              ++ Sample.twoPerfect)%list).
  - vm_compute. reflexivity.
  - simpl. lia.
Defined.
